(** * Products service (main.py): identifier codec, document serializer,
      Product model and the request handlers over one collection.

    The development embeds main.py function by function.  The calls that
    main.py makes into its libraries are embedded next to it: the
    [ObjectId] class of bson ([is_valid], the constructor, [__str__]),
    the field constraints that pydantic enforces for [Product], and the
    collection operations of the MongoDB driver ([find_one],
    [insert_one], [find_one_and_update], [delete_one]). *)

From Stdlib Require Import ZArith NArith Ascii String.
From Stdlib Require Import Strings.Byte.
From Stdlib Require Import Floats.SpecFloat.
From stdpp Require Import gmap strings list fin_maps.

Local Open Scope string_scope.

(* ===================================================================== *)
(** * Part I: definitions                                                 *)
(* ===================================================================== *)

(** ** Bytes and their hexadecimal text *)

(** The digit table of CPython ([_PyLong_DigitValue]) restricted to the
    values below 16, which is all [bytes.fromhex] accepts. *)
Definition hex_digit (c : ascii) : option N :=
  let n := N_of_ascii c in
  if (48 <=? n)%N && (n <=? 57)%N then Some (n - 48)%N
  else if (97 <=? n)%N && (n <=? 102)%N then Some (n - 87)%N
  else if (65 <=? n)%N && (n <=? 70)%N then Some (n - 55)%N
  else None.

(** [Py_ISSPACE]: tab, line feed, vertical tab, form feed, carriage
    return and space. *)
Definition is_space (c : ascii) : bool :=
  let n := N_of_ascii c in
  ((9 <=? n)%N && (n <=? 13)%N) || (n =? 32)%N.

Definition byte_of_nibbles (top bot : N) : byte :=
  match Byte.of_N (top * 16 + bot) with
  | Some b => b
  | None => x00
  end.

(** [bytes.fromhex(s)]: two hexadecimal digits per byte; white space is
    skipped where a byte starts, never inside a byte; anything else is a
    [ValueError] ([None] here). *)
Fixpoint fromhex (s : string) : option (list byte) :=
  match s with
  | EmptyString => Some []
  | String c s1 =>
      if is_space c then fromhex s1
      else
        match hex_digit c, s1 with
        | Some top, String c2 s2 =>
            match hex_digit c2 with
            | Some bot =>
                match fromhex s2 with
                | Some bs => Some (byte_of_nibbles top bot :: bs)
                | None => None
                end
            | None => None
            end
        | _, _ => None
        end
  end.

Definition hex_char (n : N) : ascii :=
  if (n <? 10)%N then ascii_of_N (48 + n) else ascii_of_N (87 + n).

(** [binascii.hexlify(bs).decode()]: two lower-case digits per byte. *)
Fixpoint hexlify (bs : list byte) : string :=
  match bs with
  | [] => EmptyString
  | b :: bs' =>
      let n := Byte.to_N b in
      String (hex_char (n / 16)) (String (hex_char (n mod 16)) (hexlify bs'))
  end.

(** ** Exceptions *)

Inductive Exception :=
  | HTTPException (status_code : Z) (detail : string)
  | ValidationError (fields : list string)
  | KeyError (key : string)
  | TypeError
  | InvalidId
  | DuplicateKeyError.

(** ** bson.ObjectId *)

Record ObjectId := mkObjectId { binary : list byte }.

(** [ObjectId(oid)] for a [str] argument: exactly 24 characters that
    [bytes.fromhex] accepts; [InvalidId] otherwise. *)
Definition ObjectId_of_str (oid : string) : option ObjectId :=
  if (String.length oid =? 24)%nat then
    match fromhex oid with
    | Some bs => Some (mkObjectId bs)
    | None => None
    end
  else None.

(** [ObjectId.is_valid(oid)]: false for a falsy argument, otherwise
    whether the constructor accepts it. *)
Definition ObjectId_is_valid (oid : string) : bool :=
  match oid with
  | EmptyString => false
  | _ => match ObjectId_of_str oid with Some _ => true | None => false end
  end.

(** [str(oid)] *)
Definition ObjectId_str (o : ObjectId) : string := hexlify (binary o).

(** main.py, [validate_object_id] *)
Definition validate_object_id (product_id : string) : Exception + ObjectId :=
  if negb (ObjectId_is_valid product_id) then
    inl (HTTPException 400 "Invalid ObjectId")
  else
    match ObjectId_of_str product_id with
    | Some o => inr o
    | None => inl InvalidId
    end.

(** ** Regular expressions, as far as the [pattern] of a field needs them *)

Inductive regex :=
  | Void
  | Eps
  | Class (ranges : list (ascii * ascii))
  | Seq (r1 r2 : regex)
  | Alt (r1 r2 : regex)
  | Star (r : regex).

(** [r+] *)
Definition Plus (r : regex) : regex := Seq r (Star r).

Definition in_range (c : ascii) (rg : ascii * ascii) : bool :=
  (N_of_ascii (fst rg) <=? N_of_ascii c)%N && (N_of_ascii c <=? N_of_ascii (snd rg))%N.

Definition in_class (c : ascii) (ranges : list (ascii * ascii)) : bool :=
  existsb (in_range c) ranges.

Fixpoint nullable (r : regex) : bool :=
  match r with
  | Void => false
  | Eps => true
  | Class _ => false
  | Seq r1 r2 => nullable r1 && nullable r2
  | Alt r1 r2 => nullable r1 || nullable r2
  | Star _ => true
  end.

(** Brzozowski derivative of [r] by the character [c]. *)
Fixpoint deriv (c : ascii) (r : regex) : regex :=
  match r with
  | Void => Void
  | Eps => Void
  | Class rs => if in_class c rs then Eps else Void
  | Seq r1 r2 =>
      if nullable r1 then Alt (Seq (deriv c r1) r2) (deriv c r2)
      else Seq (deriv c r1) r2
  | Alt r1 r2 => Alt (deriv c r1) (deriv c r2)
  | Star r1 => Seq (deriv c r1) (Star r1)
  end.

(** Whether [r] matches the whole of [s]: what [^r$] asks of a string
    (the default engine of pydantic lets [$] match at the end of the text
    only). *)
Fixpoint fullmatch (r : regex) (s : string) : bool :=
  match s with
  | EmptyString => nullable r
  | String c s' => fullmatch (deriv c r) s'
  end.

(** The strings a regular expression denotes. *)
Inductive denotes : regex -> string -> Prop :=
  | den_eps : denotes Eps EmptyString
  | den_class rs c : in_class c rs = true -> denotes (Class rs) (String c EmptyString)
  | den_seq r1 r2 s1 s2 : denotes r1 s1 -> denotes r2 s2 -> denotes (Seq r1 r2) (s1 ++ s2)
  | den_alt_l r1 r2 s : denotes r1 s -> denotes (Alt r1 r2) s
  | den_alt_r r1 r2 s : denotes r2 s -> denotes (Alt r1 r2) s
  | den_star_nil r : denotes (Star r) EmptyString
  | den_star_app r s1 s2 : denotes r s1 -> denotes (Star r) s2 -> denotes (Star r) (s1 ++ s2).

(** [r"^[a-zA-Z]+$"] *)
Definition letters : list (ascii * ascii) := [("a"%char, "z"%char); ("A"%char, "Z"%char)].
Definition name_pattern : regex := Plus (Class letters).

(** ** Documents *)

(** The values a field of a document holds here: [None], a [str], a
    [float] (an IEEE 754 binary64 number, [spec_float]) or an
    [ObjectId]. *)
Inductive value :=
  | VNone
  | VStr (s : string)
  | VFloat (f : spec_float)
  | VObjectId (o : ObjectId).

#[global] Instance byte_eq_dec : EqDecision byte := Byte.byte_eq_dec.
#[global] Instance ObjectId_eq_dec : EqDecision ObjectId.
Proof. solve_decision. Defined.
#[global] Instance spec_float_eq_dec : EqDecision spec_float.
Proof. solve_decision. Defined.
#[global] Instance value_eq_dec : EqDecision value.
Proof. solve_decision. Defined.

(** A document is a Python [dict] with [str] keys. *)
Abbreviation Doc := (gmap string value).

(** Python objects live at addresses; only [dict] objects are needed. *)
Abbreviation heap := (gmap positive Doc).

(** ** The Product model *)

Record Product := mkProduct {
  id : option string;
  name : string;
  price : spec_float
}.

(** ** The collection *)

(** Calls made on the collection handle, in the order they are made. *)
Inductive StoreCall :=
  | call_find_one (flt : Doc)
  | call_insert_one (doc : Doc)
  | call_find_one_and_update (flt upd : Doc)
  | call_delete_one (flt : Doc).

(** The collection: its documents in natural order, how many identifiers
    the process has generated so far, and the calls received. *)
Record Collection := mkCollection {
  documents : list Doc;
  generated : nat;
  calls : list StoreCall
}.

(** Handlers run against the collection and either return or raise. *)
Definition M (A : Type) : Type := Collection -> (Exception + A) * Collection.

Definition ret {A} (a : A) : M A := fun c => (inr a, c).
Definition raise {A} (e : Exception) : M A := fun c => (inl e, c).
Definition bind {A B} (m : M A) (k : A -> M B) : M B :=
  fun c =>
    match m c with
    | (inl e, c') => (inl e, c')
    | (inr a, c') => k a c'
    end.
Definition lift {A} (r : Exception + A) : M A :=
  match r with
  | inl e => raise e
  | inr a => ret a
  end.

Notation "'let!' x ':=' m 'in' k" := (bind m (fun x => k))
  (at level 10, x name, m at level 100, k at level 200).

(** An equality filter such as [{"_id": oid}]: every field of the filter
    is a field of the document with the same value. *)
Definition matches (flt d : Doc) : Prop :=
  map_Forall (fun k v => d !! k = Some v) flt.

#[global] Instance matches_dec flt d : Decision (matches flt d).
Proof. unfold matches. apply _. Defined.

(** Truth value of what [find_one] and [find_one_and_update] return:
    [None] and the empty [dict] are false. *)
Definition truthy (o : option Doc) : bool :=
  match o with
  | None => false
  | Some d => negb (bool_decide (d = ∅))
  end.

Arguments truthy : simpl never.

Definition log (call : StoreCall) (c : Collection) : Collection :=
  {| documents := documents c; generated := generated c; calls := calls c ++ [call] |}.

Definition set_documents (ds : list Doc) (c : Collection) : Collection :=
  {| documents := ds; generated := generated c; calls := calls c |}.

(** [collection.find_one(flt)]: the first matching document, or [None]. *)
Definition find_one (flt : Doc) : M (option Doc) :=
  fun c => (inr (snd <$> list_find (matches flt) (documents c)), log (call_find_one flt) c).

(** [collection.find_one_and_update(flt, {"$set": upd}, return_document=True)]:
    the fields of [upd] are set on the first matching document, which is
    returned as it is after the update. *)
Definition find_one_and_update (flt upd : Doc) : M (option Doc) :=
  fun c =>
    let c1 := log (call_find_one_and_update flt upd) c in
    match list_find (matches flt) (documents c) with
    | Some (i, d) => (inr (Some (upd ∪ d)), set_documents (<[i := upd ∪ d]> (documents c)) c1)
    | None => (inr None, c1)
    end.

(** [collection.delete_one(flt)], returning [deleted_count]. *)
Definition delete_one (flt : Doc) : M Z :=
  fun c =>
    let c1 := log (call_delete_one flt) c in
    match list_find (matches flt) (documents c) with
    | Some (i, _) => (inr 1%Z, set_documents (delete i (documents c)) c1)
    | None => (inr 0%Z, c1)
    end.

(** ** The words of the specification *)

Fixpoint string_forallb (f : ascii -> bool) (s : string) : bool :=
  match s with
  | EmptyString => true
  | String c s' => f c && string_forallb f s'
  end.

(** A hexadecimal digit: [0-9], [a-f] or [A-F]. *)
Definition is_hexdigit (c : ascii) : bool :=
  in_class c [("0"%char, "9"%char); ("a"%char, "f"%char); ("A"%char, "F"%char)].

(** A string of length 24 composed entirely of hexadecimal digits. *)
Definition is_hex24 (s : string) : bool :=
  (String.length s =? 24)%nat && string_forallb is_hexdigit s.

(** [c.lower()] on one character, and [s.lower()]. *)
Definition ascii_lower (c : ascii) : ascii :=
  let n := N_of_ascii c in
  if (65 <=? n)%N && (n <=? 90)%N then ascii_of_N (n + 32) else c.

Fixpoint lower (s : string) : string :=
  match s with
  | EmptyString => EmptyString
  | String c s' => String (ascii_lower c) (lower s')
  end.

(** The texts that stand for a sequence of bytes: pairs of hexadecimal
    digits, with white space allowed before a pair and at the end. *)
Inductive hex_text : string -> list byte -> Prop :=
  | hex_text_nil : hex_text EmptyString []
  | hex_text_space c s bs :
      is_space c = true -> hex_text s bs -> hex_text (String c s) bs
  | hex_text_pair c1 c2 top bot s bs :
      hex_digit c1 = Some top -> hex_digit c2 = Some bot -> hex_text s bs ->
      hex_text (String c1 (String c2 s)) (byte_of_nibbles top bot :: bs).

(** An alphabetic character: a letter [a-z] or [A-Z]. *)
Definition is_alpha (c : ascii) : bool :=
  let n := N_of_ascii c in
  ((97 <=? n)%N && (n <=? 122)%N) || ((65 <=? n)%N && (n <=? 90)%N).

(** One or more alphabetic characters and nothing else. *)
Definition alphabetic (s : string) : Prop :=
  s <> EmptyString /\ string_forallb is_alpha s = true.

(** A document has the identifier [o], or the name [n]. *)
Definition has_id (o : ObjectId) (d : Doc) : Prop := d !! "_id" = Some (VObjectId o).
Definition has_name (n : string) (d : Doc) : Prop := d !! "name" = Some (VStr n).

(** The float zero, and the order of floats ([NaN] is not ordered). *)
Definition zero : spec_float := S754_zero false.
Definition float_lt (x y : spec_float) : Prop := SFltb x y = true.
Definition float_le (x y : spec_float) : Prop := SFleb x y = true.

(** The invariant of the data model on a stored document and on a
    Product: an alphabetic name and a price above zero. *)
Definition stored_product (d : Doc) : Prop :=
  exists n p, d !! "name" = Some (VStr n) /\ d !! "price" = Some (VFloat p)
              /\ alphabetic n /\ float_lt zero p.

Definition valid_product (p : Product) : Prop :=
  alphabetic (name p) /\ float_lt zero (price p).

(** Every document of the collection satisfies the data model. *)
Definition store_ok (c : Collection) : Prop := Forall stored_product (documents c).

(** A computation keeps a property of the collection. *)
Definition preserves {A} (I : Collection -> Prop) (m : M A) : Prop :=
  forall c, I c -> I (snd (m c)).

(** The price 99.99 as a binary64 number, and the price -1. *)
Definition price_99_99 : spec_float := S754_finite false 7036170730324623 (-46).
Definition price_minus_1 : spec_float := S754_finite true 4503599627370496 (-52).

(** ** A small collection, for closed examples *)

(** An instance of what the development leaves open: no text is taken
    for a float, every float is written the same way, and the [n]-th
    generated identifier is eleven zero bytes followed by [n]. *)
Definition ex_str_of_float (_ : spec_float) : string := "float".
Definition ex_float_of_str (_ : string) : option spec_float := None.
Definition ex_new_ObjectId (n : nat) : ObjectId :=
  mkObjectId (replicate 11 x00
              ++ [byte_of_nibbles (N.of_nat n / 16 mod 16) (N.of_nat n mod 16)])%list.

Definition ex_single_batch (n : nat) (docs : list Doc) : list Doc := take n docs.

Definition milk_oid : ObjectId :=
  mkObjectId [x5f; x9d; x1b; x3b; x9c; x9d; x6e; x1d; x9c; x9d; x6e; x1d].
Definition bread_oid : ObjectId :=
  mkObjectId [x5f; x9d; x1b; x3b; x9c; x9d; x6e; x1d; x9c; x9d; x6e; x1e].

Definition milk_doc : Doc :=
  {[ "_id" := VObjectId milk_oid; "name" := VStr "Milk"; "price" := VFloat price_99_99 ]}.
Definition bread_doc : Doc :=
  {[ "_id" := VObjectId bread_oid; "name" := VStr "Bread"; "price" := VFloat price_99_99 ]}.

Definition shop : Collection := mkCollection [bread_doc; milk_doc] 0 [].

(** The products the two documents are listed as; a product to create,
    what creating it returns, and the collection it leaves. *)
Definition bread_listed : Product :=
  mkProduct (Some "5f9d1b3b9c9d6e1d9c9d6e1e") "Bread" price_99_99.
Definition milk_listed : Product :=
  mkProduct (Some "5f9d1b3b9c9d6e1d9c9d6e1d") "Milk" price_99_99.

Definition eggs : Product := mkProduct None "Eggs" price_99_99.
Definition eggs_created : Product :=
  mkProduct (Some "000000000000000000000000") "Eggs" price_99_99.
Definition eggs_doc : Doc :=
  {[ "_id" := VObjectId (ex_new_ObjectId 0); "name" := VStr "Eggs";
     "price" := VFloat price_99_99 ]}.
Definition shop_with_eggs : Collection :=
  mkCollection [bread_doc; milk_doc; eggs_doc] 1
    [call_find_one {[ "name" := VStr "Eggs" ]};
     call_insert_one {[ "name" := VStr "Eggs"; "price" := VFloat price_99_99 ]};
     call_find_one {[ "_id" := VObjectId (ex_new_ObjectId 0) ]}].

Section Service.

(** What the libraries compute and this development leaves open: the
    text of a float ([str(f)]), the float a text stands for where
    pydantic accepts a [str] for a float field, and the identifier
    [ObjectId()] generates (time stamp, process randomness, counter) as
    the [n]-th one of the process. *)
Variable str_of_float : spec_float -> string.
Variable float_of_str : string -> option spec_float.
Variable new_ObjectId : nat -> ObjectId.

(** [str(v)] *)
Definition py_str (v : value) : string :=
  match v with
  | VNone => "None"
  | VStr s => s
  | VFloat f => str_of_float f
  | VObjectId o => ObjectId_str o
  end.

(** main.py, [serialize_doc], on the heap: [doc] is the address of the
    argument; the result is the address of the copy. *)
Definition serialize_doc (doc : positive) (h : heap) : (Exception + positive) * heap :=
  match h !! doc with
  | None => (inl TypeError, h)
  | Some d =>
      (* logger.debug(f"Serializing document: {doc['_id']}") *)
      match d !! "_id" with
      | None => (inl (KeyError "_id"), h)
      | Some _ =>
          (* doc = doc.copy() *)
          let doc' := fresh (dom h) in
          let h1 := <[doc' := d]> h in
          (* doc["_id"] = str(doc["_id"]) *)
          match h1 !! doc' ≫= (.!! "_id") with
          | None => (inl (KeyError "_id"), h1)
          | Some v => (inr doc', alter (insert "_id" (VStr (py_str v))) doc' h1)
          end
      end
  end.

(** The [dict] that [serialize_doc] returns for a [dict] with the
    contents [d]; the handlers pass documents by value. *)
Definition serialized (d : Doc) : Exception + Doc :=
  match d !! "_id" with
  | None => inl (KeyError "_id")
  | Some v => inr (<["_id" := VStr (py_str v)]> d)
  end.

(** [id: str | None], default [None] *)
Definition validate_id (v : option value) : option (option string) :=
  match v with
  | None => Some None
  | Some VNone => Some None
  | Some (VStr s) => Some (Some s)
  | Some _ => None
  end.

(** [name: str = Field(..., min_length=1, pattern=r"^[a-zA-Z]+$")] *)
Definition validate_name (v : option value) : option string :=
  match v with
  | Some (VStr s) =>
      if (1 <=? String.length s)%nat && fullmatch name_pattern s then Some s else None
  | _ => None
  end.

(** The float a value is taken for: a float as it is, a [str] through
    its text. *)
Definition as_float (v : value) : option spec_float :=
  match v with
  | VFloat f => Some f
  | VStr s => float_of_str s
  | _ => None
  end.

(** [price: float = Field(..., gt=0)] *)
Definition validate_price (v : option value) : option spec_float :=
  match v with
  | Some x =>
      match as_float x with
      | Some f => if SFltb (S754_zero false) f then Some f else None
      | None => None
      end
  | None => None
  end.

(** The location of a field whose validation failed. *)
Definition failed {A} (loc : string) (o : option A) : list string :=
  match o with
  | Some _ => []
  | None => [loc]
  end.

(** [Product] built from the keyword arguments [kw]: the identifier is read under its alias [_id] or, as
    [populate_by_name] allows, under [id]; every field that fails is
    reported, the identifier under the key it was given by. *)
Definition Product_init (kw : Doc) : Exception + Product :=
  let id_loc := match kw !! "_id" with Some _ => "_id" | None => "id" end in
  let i := validate_id (match kw !! "_id" with Some v => Some v | None => kw !! "id" end) in
  let n := validate_name (kw !! "name") in
  let p := validate_price (kw !! "price") in
  match i, n, p with
  | Some i', Some n', Some p' => inr (mkProduct i' n' p')
  | _, _, _ =>
      inl (ValidationError (failed id_loc i ++ failed "name" n ++ failed "price" p))
  end.

(** [product.model_dump(by_alias=True, exclude={"_id", "id"})] *)
Definition model_dump (p : Product) : Doc :=
  {[ "name" := VStr (name p); "price" := VFloat (price p) ]}.

(** [collection.insert_one(doc)], returning [inserted_id]: a document
    without [_id] is given a generated one; the collection refuses an
    [_id] it already holds. *)
Definition insert_one (doc : Doc) : M value :=
  fun c =>
    let '(oid, gen) :=
      match doc !! "_id" with
      | Some v => (v, generated c)
      | None => (VObjectId (new_ObjectId (generated c)), S (generated c))
      end in
    let c1 := {| documents := documents c; generated := gen;
                 calls := calls c ++ [call_insert_one doc] |} in
    if decide (Exists (fun d : Doc => d !! "_id" = Some oid) (documents c)) then
      (inl DuplicateKeyError, c1)
    else
      (inr oid, set_documents (documents c ++ [<["_id" := oid]> doc]) c1).

(** [Product] built from [serialize_doc(doc)], for what [find_one]
    returned. *)
Definition Product_of_doc (doc : option Doc) : M Product :=
  match doc with
  | None => raise TypeError
  | Some d =>
      let! kw := lift (serialized d) in
      lift (Product_init kw)
  end.

(** main.py, [get_product] *)
Definition get_product (product_id : string) : M Product :=
  let! oid := lift (validate_object_id product_id) in
  let! product := find_one {[ "_id" := VObjectId oid ]} in
  if truthy product then Product_of_doc product
  else raise (HTTPException 404 "Product not found").

(** main.py, [create_product] *)
Definition create_product (product : Product) : M Product :=
  let product_data := model_dump product in
  let! existing := find_one {[ "name" := VStr (name product) ]} in
  if truthy existing then raise (HTTPException 400 "Product already exists")
  else
    let! inserted_id := insert_one product_data in
    let! new_product := find_one {[ "_id" := inserted_id ]} in
    Product_of_doc new_product.

(** main.py, [update_product] *)
Definition update_product (update_model : Product) (product_id : string) : M Product :=
  let product_data := model_dump update_model in
  let! oid := lift (validate_object_id product_id) in
  let! product := find_one_and_update {[ "_id" := VObjectId oid ]} product_data in
  if truthy product then Product_of_doc product
  else raise (HTTPException 404 "Product not found").

(** main.py, [delete_product] *)
Definition delete_product (product_id : string) : M Doc :=
  let! oid := lift (validate_object_id product_id) in
  let! deleted_count := delete_one {[ "_id" := VObjectId oid ]} in
  if (deleted_count =? 1)%Z then ret {[ "message" := VStr "Product successfully deleted" ]}
  else raise (HTTPException 404 "Product not found").

(** ** Requests *)

(** The routes; a request body is the [dict] that the framework hands to
    [Product] before it calls the handler. *)
Inductive Request :=
  | GET_product (product_id : string)
  | POST_products (body : Doc)
  | PUT_product (product_id : string) (body : Doc)
  | DELETE_product (product_id : string).

Inductive Response :=
  | RProduct (p : Product)
  | RDict (d : Doc).

Definition handle (r : Request) : M Response :=
  match r with
  | GET_product product_id =>
      let! p := get_product product_id in ret (RProduct p)
  | POST_products body =>
      let! product := lift (Product_init body) in
      let! p := create_product product in ret (RProduct p)
  | PUT_product product_id body =>
      let! update_model := lift (Product_init body) in
      let! p := update_product update_model product_id in ret (RProduct p)
  | DELETE_product product_id =>
      let! d := delete_product product_id in ret (RDict d)
  end.

(** The collection after a sequence of requests; what a request wrote
    before it failed stays written. *)
Definition serve (rs : list Request) (c : Collection) : Collection :=
  foldl (fun c r => snd (handle r c)) c rs.


(** ** The list of products *)

(** What the cursor of [find().skip(skip).limit(limit)] raises before it
    yields a document: [skip] refuses a negative number, and a number
    that does not fit 8 bytes cannot be sent to the server. *)
Inductive CursorError :=
  | ValueError_skip
  | OverflowError_int64.

(** What a request for the list raises: an error of the cursor, or what
    a document raised while it was made a Product. *)
Inductive ListingError :=
  | cursor_error (e : CursorError)
  | raised (e : Exception).

Definition int64_max : Z := (2 ^ 63 - 1)%Z.

Section listing.

(** For a negative [limit] the server closes the cursor after one batch
    of at most that many documents; how much of them fits the batch is
    left open. *)
Variable single_batch : nat -> list Doc -> list Doc.

(** The documents that [collection.find().skip(skip).limit(limit)]
    yields, in natural order; a [limit] of 0 is no limit. *)
Definition find_skip_limit (skip limit : Z) (docs : list Doc) : CursorError + list Doc :=
  if (skip <? 0)%Z then inl ValueError_skip
  else if (int64_max <? skip)%Z || (int64_max <? Z.abs limit)%Z then inl OverflowError_int64
  else
    let rest := drop (Z.to_nat skip) docs in
    inr (if (limit =? 0)%Z then rest
         else if (0 <? limit)%Z then take (Z.to_nat limit) rest
         else single_batch (Z.to_nat (- limit)) rest).

(** The loop of [get_products]: every document of the cursor is
    serialized and made a Product, which is appended to [products]. *)
Fixpoint get_products_loop (cursor : list Doc) (products : list Product)
    : Exception + list Product :=
  match cursor with
  | [] => inr products
  | product :: cursor' =>
      match serialized product with
      | inl e => inl e
      | inr kw =>
          match Product_init kw with
          | inl e => inl e
          | inr p => get_products_loop cursor' (products ++ [p])
          end
      end
  end.

(** main.py, [get_products]; it reads the collection and writes
    nothing. *)
Definition get_products (skip limit : Z) (c : Collection) : ListingError + list Product :=
  match find_skip_limit skip limit (documents c) with
  | inl e => inl (cursor_error e)
  | inr cursor =>
      match get_products_loop cursor [] with
      | inl e => inl (raised e)
      | inr products => inr products
      end
  end.

End listing.

(** ** More words about collections *)

(** The Product that a document is listed or returned as. *)
Definition listed_as (d : Doc) (p : Product) : Prop :=
  exists kw, serialized d = inr kw /\ Product_init kw = inr p.

(** The page of a list of documents: what comes after the first [skip]
    ones, cut to [limit] documents unless [limit] is 0. *)
Definition page (skip limit : nat) (docs : list Doc) : list Doc :=
  match limit with
  | 0 => drop skip docs
  | _ => take limit (drop skip docs)
  end.

(** The identifiers of the documents, in order; no two documents share
    one. *)
Definition doc_ids (docs : list Doc) : list value :=
  omap (fun d : Doc => d !! "_id") docs.

Definition unique_ids (docs : list Doc) : Prop := NoDup (doc_ids docs).


(* ===================================================================== *)
(** * Part II: properties                                                 *)
(* ===================================================================== *)

(** ** Hexadecimal text *)

Ltac each_ascii c :=
  destruct c as [[] [] [] [] [] [] [] []].

Lemma hex_digit_facts c t :
  hex_digit c = Some t ->
  (t < 16)%N /\ hex_char t = ascii_lower c /\ is_space c = false /\ is_hexdigit c = true.
Proof.
  each_ascii c; vm_compute; intros H; try discriminate H;
    injection H as <-; repeat split; reflexivity.
Qed.

Lemma is_hexdigit_hex_digit c :
  is_hexdigit c = true -> exists t, hex_digit c = Some t.
Proof.
  each_ascii c; vm_compute; intros H; try discriminate H; eexists; reflexivity.
Qed.

Lemma byte_nibbles b :
  let n := Byte.to_N b in
  hex_digit (hex_char (n / 16)) = Some (n / 16)%N /\
  hex_digit (hex_char (n mod 16)) = Some (n mod 16)%N /\
  is_space (hex_char (n / 16)) = false /\
  byte_of_nibbles (n / 16) (n mod 16) = b.
Proof. destruct b; vm_compute; repeat split; reflexivity. Qed.

Lemma nibbles_byte top bot :
  (top < 16)%N -> (bot < 16)%N ->
  Byte.to_N (byte_of_nibbles top bot) = (top * 16 + bot)%N.
Proof.
  intros Ht Hb. unfold byte_of_nibbles.
  destruct (Byte.of_N (top * 16 + bot)) as [b|] eqn:E.
  - by apply Byte.to_of_N.
  - pose proof (Byte.to_of_N_option_map (top * 16 + bot)) as H.
    rewrite E in H. simpl in H.
    destruct (N.leb_spec (top * 16 + bot) 255); [discriminate | lia].
Qed.

(** Decoding undoes encoding, for byte strings of any length. *)
Lemma fromhex_hexlify bs : fromhex (hexlify bs) = Some bs.
Proof.
  induction bs as [|b bs IH]; [reflexivity|].
  destruct (byte_nibbles b) as (H1 & H2 & H3 & H4).
  cbn [hexlify fromhex]. cbv zeta in *.
  rewrite H3, H1, H2, IH, H4. reflexivity.
Qed.

Lemma length_hexlify bs : String.length (hexlify bs) = 2 * length bs.
Proof. induction bs as [|b bs IH]; simpl; [reflexivity | rewrite IH; lia]. Qed.

(** A text of [2 * n] hexadecimal digits decodes to [n] bytes, and these
    encode to the text in lower case. *)
Lemma fromhex_digits n : forall s,
  String.length s = 2 * n -> string_forallb is_hexdigit s = true ->
  exists bs, fromhex s = Some bs /\ length bs = n /\ hexlify bs = lower s.
Proof.
  induction n as [|n IH]; intros s Hlen Hhex.
  - destruct s; [|discriminate]. exists []. done.
  - destruct s as [|c1 [|c2 s]]; simpl in Hlen; try lia.
    cbn [string_forallb] in Hhex.
    apply andb_true_iff in Hhex as [Hc1 Hhex].
    apply andb_true_iff in Hhex as [Hc2 Hhex].
    destruct (is_hexdigit_hex_digit _ Hc1) as [top Htop].
    destruct (is_hexdigit_hex_digit _ Hc2) as [bot Hbot].
    destruct (hex_digit_facts _ _ Htop) as (Ht & Hlt & Hsp & _).
    destruct (hex_digit_facts _ _ Hbot) as (Hb & Hlb & _ & _).
    destruct (IH s) as (bs & Hbs & Hn & Hx); [lia | done |].
    exists (byte_of_nibbles top bot :: bs).
    cbn [fromhex]. rewrite Hsp, Htop, Hbot, Hbs.
    split; [done|]. split; [simpl; lia|].
    cbn [hexlify lower]. cbv zeta. rewrite nibbles_byte by done.
    replace ((top * 16 + bot) / 16)%N with top
      by (apply N.div_unique with bot; lia).
    replace ((top * 16 + bot) mod 16)%N with bot
      by (apply N.mod_unique with top; lia).
    by rewrite Hlt, Hlb, Hx.
Qed.

(** [fromhex] computes exactly the texts of [hex_text]. *)
Lemma fromhex_hex_text s bs : fromhex s = Some bs <-> hex_text s bs.
Proof.
  split.
  - remember (String.length s) as n eqn:Hn.
    revert s bs Hn. induction (lt_wf n) as [n _ IH]. intros s bs Hn H.
    destruct s as [|c s]; simpl in H.
    + injection H as <-. constructor.
    + destruct (is_space c) eqn:Hsp.
      * apply hex_text_space; [done|]. eapply IH; [|reflexivity|done].
        subst n. simpl. lia.
      * destruct (hex_digit c) as [top|] eqn:Htop; [|discriminate].
        destruct s as [|c2 s]; [discriminate|].
        destruct (hex_digit c2) as [bot|] eqn:Hbot; [|discriminate].
        destruct (fromhex s) as [bs'|] eqn:Hs; [|discriminate].
        injection H as <-. apply hex_text_pair; [done..|].
        eapply IH; [|reflexivity|done]. subst n. simpl. lia.
  - induction 1 as [|c s bs Hsp _ IH|c1 c2 top bot s bs H1 H2 _ IH].
    + reflexivity.
    + simpl. by rewrite Hsp.
    + destruct (hex_digit_facts _ _ H1) as (_ & _ & Hsp & _).
      cbn [fromhex]. by rewrite Hsp, H1, H2, IH.
Qed.

(** A character that is neither a hexadecimal digit nor white space
    makes [fromhex] fail. *)
Lemma fromhex_alphabet s bs :
  fromhex s = Some bs ->
  string_forallb (fun c => is_hexdigit c || is_space c) s = true.
Proof.
  rewrite fromhex_hex_text. induction 1 as [|c s bs Hsp _ IH|c1 c2 top bot s bs H1 H2 _ IH].
  - reflexivity.
  - simpl. rewrite Hsp, IH. by rewrite orb_true_r.
  - destruct (hex_digit_facts _ _ H1) as (_ & _ & _ & Hd1).
    destruct (hex_digit_facts _ _ H2) as (_ & _ & _ & Hd2).
    simpl. by rewrite Hd1, Hd2, IH.
Qed.

(** ** The identifier codec *)

Lemma validate_object_id_eq s :
  validate_object_id s =
    match ObjectId_of_str s with
    | Some o => inr o
    | None => inl (HTTPException 400 "Invalid ObjectId")
    end.
Proof.
  unfold validate_object_id, ObjectId_is_valid.
  destruct s as [|c s]; [reflexivity|].
  by destruct (ObjectId_of_str (String c s)).
Qed.

Lemma ObjectId_of_str_Some s o :
  ObjectId_of_str s = Some o <-> String.length s = 24 /\ fromhex s = Some (binary o).
Proof.
  unfold ObjectId_of_str. destruct (Nat.eqb_spec (String.length s) 24) as [Hl|Hl].
  - destruct (fromhex s) as [bs|]; split.
    + intros [= <-]. done.
    + intros [_ [= ->]]. by destruct o.
    + discriminate.
    + intros [_ ?]. discriminate.
  - split; [discriminate | intros [? _]; done].
Qed.

(** The identifier that [str] gave is read back by [validate_object_id],
    for the 12-byte identifiers of the store. *)
Lemma validate_object_id_str o :
  length (binary o) = 12 -> validate_object_id (ObjectId_str o) = inr o.
Proof.
  intros Hlen. rewrite validate_object_id_eq.
  destruct (ObjectId_of_str (ObjectId_str o)) as [o'|] eqn:E.
  - apply ObjectId_of_str_Some in E as [_ E].
    unfold ObjectId_str in E. rewrite fromhex_hexlify in E.
    injection E as E. destruct o, o'; simpl in *; by subst.
  - assert (ObjectId_of_str (ObjectId_str o) = Some o) as E'; [|congruence].
    apply ObjectId_of_str_Some. unfold ObjectId_str.
    rewrite length_hexlify, fromhex_hexlify, Hlen. done.
Qed.


(** C2 (as the code has it).  Every string of 24 hexadecimal digits is
    accepted, and the identifier returned has 12 bytes whose text is the
    string in lower case.  A string is accepted exactly when it has 24
    characters that form pairs of hexadecimal digits with white space
    allowed before a pair and at the end.  Every other string is refused
    with HTTP 400 and the message "Invalid ObjectId": in particular every
    string whose length is not 24 and every string with a character that
    is neither a hexadecimal digit nor white space. *)
Theorem validate_object_id_accepts (s : string) :
  (is_hex24 s = true ->
     exists o, validate_object_id s = inr o /\ length (binary o) = 12
               /\ ObjectId_str o = lower s)
  /\ (forall o, validate_object_id s = inr o <->
                String.length s = 24 /\ hex_text s (binary o))
  /\ ((forall o, validate_object_id s <> inr o) ->
        validate_object_id s = inl (HTTPException 400 "Invalid ObjectId"))
  /\ (String.length s <> 24 ->
        validate_object_id s = inl (HTTPException 400 "Invalid ObjectId"))
  /\ (string_forallb (fun c => is_hexdigit c || is_space c) s = false ->
        validate_object_id s = inl (HTTPException 400 "Invalid ObjectId")).
Proof.
  assert (forall o, validate_object_id s = inr o <->
                    String.length s = 24 /\ hex_text s (binary o)) as Hiff.
  { intros o. rewrite validate_object_id_eq, <- fromhex_hex_text, <- ObjectId_of_str_Some.
    destruct (ObjectId_of_str s); split; congruence. }
  assert ((forall o, validate_object_id s <> inr o) ->
          validate_object_id s = inl (HTTPException 400 "Invalid ObjectId")) as Hno.
  { intros Hnone. rewrite validate_object_id_eq in *.
    destruct (ObjectId_of_str s) as [o|]; [by destruct (Hnone o) | done]. }
  split; [|split; [exact Hiff|split; [exact Hno|split]]].
  - intros Hs. apply andb_true_iff in Hs as [Hlen Hhex].
    apply Nat.eqb_eq in Hlen.
    destruct (fromhex_digits 12 s) as (bs & Hbs & Hn & Hx); [done..|].
    exists (mkObjectId bs). split; [|done].
    apply Hiff. split; [done|]. by apply fromhex_hex_text.
  - intros Hlen. apply Hno. intros o Ho. apply Hiff in Ho as [? _]. done.
  - intros Hbad. apply Hno. intros o Ho. apply Hiff in Ho as [_ Ho].
    apply fromhex_hex_text, fromhex_alphabet in Ho. congruence.
Qed.

(** ** Regular expressions *)

Lemma append_empty (s1 s2 : string) :
  s1 ++ s2 = EmptyString -> s1 = EmptyString /\ s2 = EmptyString.
Proof. destruct s1; [done | discriminate]. Qed.

Lemma append_nil_l (s : string) : EmptyString ++ s = s.
Proof. reflexivity. Qed.

Lemma append_cons c (s1 s2 : string) : String c s1 ++ s2 = String c (s1 ++ s2).
Proof. reflexivity. Qed.

Lemma nullable_denotes r : nullable r = true <-> denotes r EmptyString.
Proof.
  split.
  - induction r as [| |rs|r1 IH1 r2 IH2|r1 IH1 r2 IH2|r IH]; simpl; intros H;
      try discriminate.
    + constructor.
    + apply andb_true_iff in H as [H1 H2].
      apply (den_seq r1 r2 EmptyString EmptyString); auto.
    + apply orb_true_iff in H as [H|H]; [apply den_alt_l | apply den_alt_r]; auto.
    + constructor.
  - remember EmptyString as s eqn:Hs.
    induction 1 as [|rs c Hc|r1 r2 s1 s2 _ IH1 _ IH2|r1 r2 s _ IH|r1 r2 s _ IH|r|r s1 s2 _ _ _ _];
      simpl; try done.
    + apply append_empty in Hs as [-> ->]. by rewrite IH1, IH2.
    + by rewrite IH.
    + rewrite IH by done. apply orb_true_r.
Qed.

Lemma deriv_sound c r : forall s, denotes (deriv c r) s -> denotes r (String c s).
Proof.
  induction r as [| |rs|r1 IH1 r2 IH2|r1 IH1 r2 IH2|r IH]; simpl; intros s H.
  - inversion H.
  - inversion H.
  - destruct (in_class c rs) eqn:Hc; inversion H; subst. by constructor.
  - assert (forall t, denotes (Seq (deriv c r1) r2) t -> denotes (Seq r1 r2) (String c t)) as Hseq.
    { intros t Ht. inversion Ht as [| |? ? s1 s2 Hs1 Hs2| | | |]; subst.
      apply (den_seq r1 r2 (String c s1) s2); auto. }
    destruct (nullable r1) eqn:Hn; [|by apply Hseq].
    inversion H; subst; [by apply Hseq|].
    apply (den_seq r1 r2 EmptyString (String c s)); [by apply nullable_denotes | auto].
  - inversion H; subst; [apply den_alt_l | apply den_alt_r]; auto.
  - inversion H as [| |? ? s1 s2 Hs1 Hs2| | | |]; subst.
    apply (den_star_app r (String c s1) s2); auto.
Qed.

Lemma deriv_complete c r s : denotes r (String c s) -> denotes (deriv c r) s.
Proof.
  remember (String c s) as t eqn:Ht. intros H. revert s Ht.
  induction H as [|rs c0 Hc|r1 r2 s1 s2 H1 IH1 H2 IH2|r1 r2 t H IH|r1 r2 t H IH
                  |r|r s1 s2 H1 IH1 H2 IH2]; intros s Ht; simpl.
  - discriminate.
  - injection Ht as -> <-. rewrite Hc. constructor.
  - destruct s1 as [|c1 s1]; rewrite ?append_nil_l, ?append_cons in Ht.
    + subst s2. apply nullable_denotes in H1. rewrite H1. apply den_alt_r. by apply IH2.
    + injection Ht as -> <-.
      assert (denotes (Seq (deriv c r1) r2) (s1 ++ s2)) by (constructor; auto).
      destruct (nullable r1); [by apply den_alt_l | done].
  - apply den_alt_l. by apply IH.
  - apply den_alt_r. by apply IH.
  - discriminate.
  - destruct s1 as [|c1 s1]; rewrite ?append_nil_l, ?append_cons in Ht.
    + by apply IH2.
    + injection Ht as -> <-. constructor; auto.
Qed.

(** The matcher decides the denotation. *)
Lemma fullmatch_denotes s : forall r, fullmatch r s = true <-> denotes r s.
Proof.
  induction s as [|c s IH]; intros r; simpl.
  - apply nullable_denotes.
  - rewrite IH. split; [apply deriv_sound | apply deriv_complete].
Qed.

Lemma in_class_letters c : in_class c letters = is_alpha c.
Proof. each_ascii c; reflexivity. Qed.

Lemma star_letters s :
  denotes (Star (Class letters)) s <-> string_forallb is_alpha s = true.
Proof.
  split.
  - remember (Star (Class letters)) as r eqn:Hr. intros H.
    induction H as [| | | | | |r s1 s2 H1 _ _ IH2]; try discriminate; [done|].
    injection Hr as ->. inversion H1 as [|? c Hc| | | | |]; subst.
    simpl. rewrite <- in_class_letters, Hc. by apply IH2.
  - induction s as [|c s IH]; simpl; intros H; [constructor|].
    apply andb_true_iff in H as [Hc Hs].
    apply (den_star_app _ (String c EmptyString) s); [|auto].
    constructor. by rewrite in_class_letters.
Qed.

(** The pattern of [name] accepts exactly the alphabetic strings. *)
Lemma name_pattern_alphabetic s :
  fullmatch name_pattern s = true <-> alphabetic s.
Proof.
  rewrite fullmatch_denotes. unfold name_pattern, Plus, alphabetic. split.
  - intros H. inversion H as [| |? ? s1 s2 H1 H2| | | |]; subst.
    inversion H1 as [|? c Hc| | | | |]; subst. simpl.
    split; [done|]. rewrite <- in_class_letters, Hc. by apply star_letters.
  - intros [Hne H]. destruct s as [|c s]; [done|]. simpl in H.
    apply andb_true_iff in H as [Hc Hs].
    apply (den_seq _ _ (String c EmptyString) s).
    + constructor. by rewrite in_class_letters.
    + by apply star_letters.
Qed.

(** ** The Product model *)

Lemma min_length_1 (s : string) :
  (1 <=? String.length s)%nat = true <-> s <> EmptyString.
Proof. destruct s; simpl; split; done. Qed.

Lemma validate_name_Some v n :
  validate_name v = Some n <-> v = Some (VStr n) /\ alphabetic n.
Proof.
  unfold validate_name. split.
  - destruct v as [[ |s| | ]|]; try discriminate.
    destruct (1 <=? String.length s)%nat eqn:Hlen; [|discriminate]. simpl.
    destruct (fullmatch name_pattern s) eqn:Hm; [|discriminate].
    intros [= ->]. split; [done|]. by apply name_pattern_alphabetic.
  - intros [-> Hn]. pose proof Hn as [Hne _].
    apply min_length_1 in Hne. apply name_pattern_alphabetic in Hn.
    by rewrite Hne, Hn.
Qed.

Lemma validate_price_float p p' :
  validate_price (Some (VFloat p)) = Some p' <-> p' = p /\ float_lt zero p.
Proof.
  unfold validate_price, float_lt, zero. simpl.
  destruct (SFltb (S754_zero false) p); split; try discriminate.
  - by intros [= ->].
  - by intros [-> _].
  - intros [_ ?]. discriminate.
Qed.

Lemma Product_init_fields kw i n p :
  validate_id (match kw !! "_id" with Some v => Some v | None => kw !! "id" end) = Some i ->
  validate_name (kw !! "name") = Some n ->
  validate_price (kw !! "price") = Some p ->
  Product_init kw = inr (mkProduct i n p).
Proof. intros Hi Hn Hp. unfold Product_init. by rewrite Hi, Hn, Hp. Qed.

Lemma Product_init_inr kw prod :
  Product_init kw = inr prod ->
  validate_name (kw !! "name") = Some (name prod)
  /\ validate_price (kw !! "price") = Some (price prod)
  /\ validate_id (match kw !! "_id" with Some v => Some v | None => kw !! "id" end)
     = Some (id prod).
Proof.
  unfold Product_init.
  destruct (validate_id _), (validate_name _), (validate_price _); try discriminate.
  by intros [= <-].
Qed.

Lemma Product_init_cases kw :
  (exists prod, Product_init kw = inr prod)
  \/ (exists fields, Product_init kw = inl (ValidationError fields)).
Proof.
  unfold Product_init.
  destruct (validate_id _), (validate_name _), (validate_price _); eauto.
Qed.

Lemma is_space_not_alpha c : is_space c = true -> is_alpha c = false.
Proof. each_ascii c; vm_compute; congruence. Qed.

Lemma float_le_zero_not_lt p : float_le p zero -> ~ float_lt zero p.
Proof.
  unfold float_le, float_lt, zero.
  destruct p as [[]|[]| |[] m e]; vm_compute; congruence.
Qed.

Lemma name_price_lookups (n : string) (p : spec_float) :
  let kw : Doc := {[ "name" := VStr n; "price" := VFloat p ]} in
  kw !! "_id" = None /\ kw !! "id" = None
  /\ kw !! "name" = Some (VStr n) /\ kw !! "price" = Some (VFloat p).
Proof. done. Qed.

(** C1.  Product construction from a name and a price succeeds exactly
    when the name is one or more alphabetic characters and the price is
    strictly greater than zero; otherwise it fails with ValidationError:
    so for an empty name, a name of white space only, a name with a
    character that is not alphabetic, and a price less than or equal to
    zero.  "Milk" at 99.99 succeeds; the names of three spaces and
    "Milk123", and the prices 0 and -1, fail. *)
Theorem Product_construction :
  (forall (n : string) (p : spec_float),
     let kw : Doc := {[ "name" := VStr n; "price" := VFloat p ]} in
     (Product_init kw = inr (mkProduct None n p) <-> alphabetic n /\ float_lt zero p)
     /\ (Product_init kw = inr (mkProduct None n p)
         \/ exists fields, Product_init kw = inl (ValidationError fields))
     /\ (n = EmptyString \/ string_forallb is_space n = true
         \/ string_forallb is_alpha n = false \/ float_le p zero ->
         exists fields, Product_init kw = inl (ValidationError fields)))
  /\ Product_init {[ "name" := VStr "Milk"; "price" := VFloat price_99_99 ]}
       = inr (mkProduct None "Milk" price_99_99)
  /\ Product_init {[ "name" := VStr "   "; "price" := VFloat price_99_99 ]}
       = inl (ValidationError ["name"])
  /\ Product_init {[ "name" := VStr "Milk123"; "price" := VFloat price_99_99 ]}
       = inl (ValidationError ["name"])
  /\ Product_init {[ "name" := VStr "Milk"; "price" := VFloat zero ]}
       = inl (ValidationError ["price"])
  /\ Product_init {[ "name" := VStr "Milk"; "price" := VFloat price_minus_1 ]}
       = inl (ValidationError ["price"]).
Proof.
  split; [|repeat split; reflexivity].
  intros n p kw.
  destruct (name_price_lookups n p) as (Hid & Hid' & Hname & Hprice). fold kw in Hid, Hid', Hname, Hprice.
  assert (Product_init kw = inr (mkProduct None n p) <-> alphabetic n /\ float_lt zero p) as Hiff.
  { split.
    - intros H. apply Product_init_inr in H as (Hn & Hp & _). simpl in Hn, Hp.
      rewrite Hname in Hn. rewrite Hprice in Hp.
      apply validate_name_Some in Hn as [_ Hn].
      apply validate_price_float in Hp as [_ Hp]. done.
    - intros [Hn Hp]. apply Product_init_fields.
      + by rewrite Hid, Hid'.
      + rewrite Hname. by apply validate_name_Some.
      + rewrite Hprice. by apply validate_price_float. }
  assert (Product_init kw = inr (mkProduct None n p)
          \/ exists fields, Product_init kw = inl (ValidationError fields)) as Hcases.
  { destruct (Product_init_cases kw) as [[prod H]|H]; [left|by right].
    pose proof (Product_init_inr _ _ H) as (Hn & Hp & Hi).
    rewrite Hname in Hn. rewrite Hprice in Hp. rewrite Hid, Hid' in Hi.
    apply validate_name_Some in Hn as [[= Hn] _].
    apply validate_price_float in Hp as [Hp _].
    injection Hi as Hi. rewrite H. destruct prod; simpl in *. by subst. }
  split; [exact Hiff|]. split; [exact Hcases|].
  intros Hbad. destruct Hcases as [Hok|Herr]; [|done].
  exfalso. apply Hiff in Hok as [[Hne Halpha] Hpos].
  destruct Hbad as [->|[Hsp|[Hna|Hle]]].
  - done.
  - destruct n as [|c n]; [done|]. simpl in Hsp, Halpha.
    apply andb_true_iff in Hsp as [Hc _]. apply is_space_not_alpha in Hc.
    by rewrite Hc in Halpha.
  - congruence.
  - by apply (float_le_zero_not_lt p).
Qed.

(** ** The document serializer *)

Lemma serialized_ObjectId (d : Doc) o :
  d !! "_id" = Some (VObjectId o) ->
  serialized d = inr (<["_id" := VStr (ObjectId_str o)]> d).
Proof. intros H. unfold serialized. by rewrite H. Qed.

(** What [serialize_doc] returns on the heap is what [serialized] gives
    for the contents of its argument. *)
Lemma serialize_doc_serialized (h : heap) (doc : positive) (d : Doc) :
  h !! doc = Some d ->
  match serialize_doc doc h, serialized d with
  | (inr doc', h'), inr d' => h' !! doc' = Some d'
  | (inl e, h'), inl e' => e = e' /\ h' = h
  | _, _ => False
  end.
Proof.
  intros Hd. unfold serialize_doc, serialized. rewrite Hd.
  destruct (d !! "_id") as [v|] eqn:Hid; [|done].
  rewrite lookup_insert_eq. simpl. rewrite Hid.
  by rewrite lookup_alter_eq, lookup_insert_eq.
Qed.

(** C9.  For a document with a native identifier, [serialize_doc]
    returns a new [dict] (a shallow copy) whose [_id] is the string
    encoding of the input's identifier and whose other fields are those
    of the input; the input document, and every other object, is left as
    it was. *)
Theorem serialize_doc_copy (h : heap) (doc : positive) (d : Doc) (o : ObjectId) :
  h !! doc = Some d ->
  d !! "_id" = Some (VObjectId o) ->
  exists (doc' : positive) (h' : heap) (d' : Doc),
    serialize_doc doc h = (inr doc', h')
    /\ doc' <> doc /\ h !! doc' = None
    /\ h' !! doc' = Some d'
    /\ d' !! "_id" = Some (VStr (ObjectId_str o))
    /\ (forall k, k <> "_id" -> d' !! k = d !! k)
    /\ h' !! doc = Some d
    /\ (forall l, l <> doc' -> h' !! l = h !! l).
Proof.
  intros Hd Hid. unfold serialize_doc. rewrite Hd, Hid.
  rewrite lookup_insert_eq. simpl. rewrite Hid.
  set (doc' := fresh (dom h)).
  assert (h !! doc' = None) as Hfresh by apply not_elem_of_dom, is_fresh.
  assert (doc' <> doc) as Hne by congruence.
  eexists doc', _, (<["_id" := VStr (ObjectId_str o)]> d).
  split; [reflexivity|]. split; [done|]. split; [done|].
  split; [by rewrite lookup_alter_eq, lookup_insert_eq|].
  split; [by rewrite lookup_insert_eq|].
  split; [by intros k Hk; rewrite lookup_insert_ne|].
  split.
  - by rewrite lookup_alter_ne, lookup_insert_ne.
  - intros l Hl. by rewrite lookup_alter_ne, lookup_insert_ne.
Qed.

(** ** The collection *)

Lemma matches_singleton k v (d : Doc) : matches {[ k := v ]} d <-> d !! k = Some v.
Proof.
  unfold matches.
  exact (map_Forall_singleton (fun k' v' => d !! k' = Some v') k v).
Qed.

Lemma matches_id o (d : Doc) : matches {[ "_id" := VObjectId o ]} d <-> has_id o d.
Proof. apply matches_singleton. Qed.

Lemma matches_name n (d : Doc) : matches {[ "name" := VStr n ]} d <-> has_name n d.
Proof. apply matches_singleton. Qed.

Lemma truthy_field (d : Doc) k v : d !! k = Some v -> truthy (Some d) = true.
Proof.
  intros H. unfold truthy. rewrite bool_decide_eq_false_2; [done|].
  intros ->. by rewrite lookup_empty in H.
Qed.

Section find.
Context {A : Type} (P : A -> Prop) `{!forall x, Decision (P x)}.

Lemma list_find_middle (l1 l2 : list A) x :
  P x -> Forall (fun y => ~ P y) l1 ->
  list_find P (l1 ++ x :: l2) = Some (length l1, x).
Proof.
  intros Hx Hl1. apply list_find_Some. split; [|split; [done|]].
  - by rewrite list_lookup_middle.
  - intros j y Hj Hlt. rewrite lookup_app_l in Hj by done.
    eapply Forall_lookup_1 in Hl1; eauto.
Qed.

Lemma list_find_absent (l : list A) :
  Forall (fun y => ~ P y) l -> list_find P l = None.
Proof. apply list_find_None. Qed.

Lemma list_find_In (l : list A) i x :
  list_find P l = Some (i, x) -> l !! i = Some x /\ P x.
Proof. intros Hf. apply list_find_Some in Hf. tauto. Qed.
End find.

Lemma insert_middle {A} (l1 l2 : list A) x y :
  <[length l1 := y]> (l1 ++ x :: l2)%list = (l1 ++ y :: l2)%list.
Proof. induction l1 as [|z l1 IH]; simpl; [done | by rewrite IH]. Qed.

Lemma delete_at_middle {A} (l1 l2 : list A) x :
  delete (length l1) (l1 ++ x :: l2)%list = (l1 ++ l2)%list.
Proof. induction l1 as [|z l1 IH]; simpl; [done | by rewrite IH]. Qed.

Lemma Forall_not_id_matches o (l : list Doc) :
  Forall (fun d => ~ has_id o d) l ->
  Forall (fun d => ~ matches {[ "_id" := VObjectId o ]} d) l.
Proof.
  intros Hl. eapply Forall_impl; [exact Hl|].
  intros d Hd Hm. by apply Hd, matches_id.
Qed.

Lemma Forall_not_name_matches n (l : list Doc) :
  Forall (fun d => ~ has_name n d) l ->
  Forall (fun d => ~ matches {[ "name" := VStr n ]} d) l.
Proof.
  intros Hl. eapply Forall_impl; [exact Hl|].
  intros d Hd Hm. by apply Hd, matches_name.
Qed.

Lemma find_one_found flt (c : Collection) (l1 l2 : list Doc) (d : Doc) :
  documents c = (l1 ++ d :: l2)%list -> matches flt d ->
  Forall (fun d' => ~ matches flt d') l1 ->
  find_one flt c = (inr (Some d), log (call_find_one flt) c).
Proof.
  intros Hdocs Hd Hl1. unfold find_one.
  by rewrite Hdocs, (list_find_middle _ l1 l2 d).
Qed.

Lemma find_one_absent flt (c : Collection) :
  Forall (fun d' => ~ matches flt d') (documents c) ->
  find_one flt c = (inr None, log (call_find_one flt) c).
Proof. intros Hnone. unfold find_one. by rewrite list_find_absent. Qed.

(** [$set] of the fields of a Product on a document. *)
Lemma model_dump_union (p : Product) (d : Doc) :
  model_dump p ∪ d = <["name" := VStr (name p)]> (<["price" := VFloat (price p)]> d).
Proof.
  unfold model_dump.
  by rewrite <- insert_union_l, <- insert_union_singleton_l.
Qed.

Lemma validate_price_pos v p : validate_price v = Some p -> float_lt zero p.
Proof.
  unfold validate_price, float_lt, zero.
  destruct v as [x|]; [|discriminate].
  destruct (as_float x) as [f|]; [|discriminate].
  destruct (SFltb (S754_zero false) f) eqn:E; [|discriminate].
  by intros [= <-].
Qed.

Lemma Product_init_valid kw p : Product_init kw = inr p -> valid_product p.
Proof.
  intros H. apply Product_init_inr in H as (Hn & Hp & _). split.
  - by apply validate_name_Some in Hn as [_ ?].
  - by apply validate_price_pos in Hp.
Qed.

(** A serialized stored document makes a Product. *)
Lemma Product_init_stored (kw : Doc) s n p :
  kw !! "_id" = Some (VStr s) -> kw !! "name" = Some (VStr n) ->
  kw !! "price" = Some (VFloat p) -> alphabetic n -> float_lt zero p ->
  Product_init kw = inr (mkProduct (Some s) n p).
Proof.
  intros Hid Hname Hprice Hn Hp. apply Product_init_fields.
  - by rewrite Hid.
  - rewrite Hname. by apply validate_name_Some.
  - rewrite Hprice. by apply validate_price_float.
Qed.

Lemma Product_of_doc_id (d : Doc) o c :
  has_id o d ->
  Product_of_doc (Some d) c = (Product_init (<["_id" := VStr (ObjectId_str o)]> d), c).
Proof.
  intros Hid. unfold Product_of_doc, bind, lift.
  rewrite (serialized_ObjectId d o Hid). unfold ret.
  by destruct (Product_init _).
Qed.

Lemma Product_of_doc_stored (d : Doc) o n p c :
  has_id o d -> d !! "name" = Some (VStr n) -> d !! "price" = Some (VFloat p) ->
  alphabetic n -> float_lt zero p ->
  Product_of_doc (Some d) c = (inr (mkProduct (Some (ObjectId_str o)) n p), c).
Proof.
  intros Hid Hname Hprice Hn Hp. rewrite (Product_of_doc_id d o c Hid).
  f_equal. apply Product_init_stored; try done.
  - by rewrite lookup_insert_eq.
  - by rewrite lookup_insert_ne.
  - by rewrite lookup_insert_ne.
Qed.

(** ** The handlers *)

Lemma validate_object_id_inl s e :
  validate_object_id s = inl e -> e = HTTPException 400 "Invalid ObjectId".
Proof.
  rewrite validate_object_id_eq. destruct (ObjectId_of_str s); congruence.
Qed.

(** C3.  When a document of the collection has the name of the product,
    [create_product] fails with HTTP 400 "Product already exists" and
    writes nothing: the only call it makes is the [find_one] by name, and
    the documents, their number and the count of generated identifiers
    are unchanged. *)
Theorem create_product_conflict (product : Product) (c : Collection) (d : Doc) :
  d ∈ documents c ->
  has_name (name product) d ->
  exists c',
    create_product product c = (inl (HTTPException 400 "Product already exists"), c')
    /\ documents c' = documents c
    /\ length (documents c') = length (documents c)
    /\ generated c' = generated c
    /\ calls c' = (calls c ++ [call_find_one {[ "name" := VStr (name product) ]}])%list.
Proof.
  intros Hin Hname.
  destruct (list_find_elem_of (matches {[ "name" := VStr (name product) ]})
              (documents c) d) as [[i d'] Hfind]; [done | by apply matches_name |].
  pose proof (list_find_In _ _ _ _ Hfind) as [_ Hd'%matches_name].
  eexists. unfold create_product, bind, find_one. rewrite Hfind. simpl.
  rewrite (truthy_field d' _ _ Hd'). unfold raise. done.
Qed.

Lemma validate_object_id_inr s o :
  validate_object_id s = inr o ->
  String.length s = 24 /\ fromhex s = Some (binary o).
Proof.
  rewrite validate_object_id_eq.
  destruct (ObjectId_of_str s) as [o'|] eqn:E; [|discriminate].
  intros [= <-]. by apply ObjectId_of_str_Some.
Qed.

Lemma validate_object_id_hex24 s :
  is_hex24 s = true ->
  exists o, validate_object_id s = inr o /\ length (binary o) = 12.
Proof.
  intros Hs. apply andb_true_iff in Hs as [Hlen Hhex]. apply Nat.eqb_eq in Hlen.
  destruct (fromhex_digits 12 s Hlen Hhex) as (bs & Hbs & Hn & _).
  exists (mkObjectId bs). split; [|done].
  rewrite validate_object_id_eq.
  by rewrite (proj2 (ObjectId_of_str_Some s (mkObjectId bs))).
Qed.

Lemma get_product_found (product_id : string) (oid : ObjectId) (c : Collection)
    (l1 l2 : list Doc) (d : Doc) :
  validate_object_id product_id = inr oid ->
  documents c = (l1 ++ d :: l2)%list ->
  has_id oid d ->
  Forall (fun d' => ~ has_id oid d') l1 ->
  get_product product_id c
    = Product_of_doc (Some d) (log (call_find_one {[ "_id" := VObjectId oid ]}) c).
Proof.
  intros Hoid Hdocs Hid Hl1.
  unfold get_product, bind, lift, find_one. rewrite Hoid. unfold ret at 1.
  rewrite Hdocs, (list_find_middle _ l1 l2 d);
    [|by apply matches_id | by apply Forall_not_id_matches].
  simpl. rewrite (truthy_field d _ _ Hid).
  unfold log. by rewrite Hdocs.
Qed.

(** C5 (as the code has it).  [get_product]: when identifier validation
    refuses the string, as it does every string whose length is not 24
    and every string with a character that is neither a hexadecimal digit
    nor white space, the handler fails with HTTP 400 "Invalid ObjectId"
    and the collection has received no call.  When validation accepts it,
    as it does every string of 24 hexadecimal digits, exactly one call is
    made, the look-up by the decoded identifier, and nothing is written;
    if a document has the identifier, the result is the Product built
    from that document serialized (for a document that satisfies the data
    model: the Product with the identifier as text and the document's
    name and price); if no document has it, the handler fails with HTTP
    404 "Product not found". *)
Theorem get_product_spec (product_id : string) (c : Collection) :
  (forall e, validate_object_id product_id = inl e ->
     get_product product_id c = (inl (HTTPException 400 "Invalid ObjectId"), c))
  /\ (String.length product_id <> 24
      \/ string_forallb (fun ch => is_hexdigit ch || is_space ch) product_id = false ->
      get_product product_id c = (inl (HTTPException 400 "Invalid ObjectId"), c))
  /\ (is_hex24 product_id = true ->
      exists oid, validate_object_id product_id = inr oid /\ length (binary oid) = 12)
  /\ (forall oid, validate_object_id product_id = inr oid ->
       let c1 := log (call_find_one {[ "_id" := VObjectId oid ]}) c in
       documents c1 = documents c
       /\ generated c1 = generated c
       /\ calls c1 = (calls c ++ [call_find_one {[ "_id" := VObjectId oid ]}])%list
       /\ (forall l1 d l2,
          documents c = (l1 ++ d :: l2)%list -> has_id oid d ->
          Forall (fun d' => ~ has_id oid d') l1 ->
          get_product product_id c
            = (Product_init (<["_id" := VStr (ObjectId_str oid)]> d), c1)
          /\ (forall n p,
                d !! "name" = Some (VStr n) -> d !! "price" = Some (VFloat p) ->
                alphabetic n -> float_lt zero p ->
                get_product product_id c
                  = (inr (mkProduct (Some (ObjectId_str oid)) n p), c1)))
       /\ (Forall (fun d' => ~ has_id oid d') (documents c) ->
            get_product product_id c
              = (inl (HTTPException 404 "Product not found"), c1))).
Proof.
  assert (forall e, validate_object_id product_id = inl e ->
            get_product product_id c = (inl (HTTPException 400 "Invalid ObjectId"), c))
    as Hrefused.
  { intros e He. pose proof (validate_object_id_inl _ _ He) as ->.
    unfold get_product, bind, lift. by rewrite He. }
  split; [exact Hrefused|]. split; [|split].
  - intros Hbad. destruct (validate_object_id product_id) as [e|oid] eqn:Hoid;
      [by apply (Hrefused e)|].
    exfalso. apply validate_object_id_inr in Hoid as [Hlen Hhex].
    destruct Hbad as [Hbad|Hbad]; [done|].
    apply fromhex_alphabet in Hhex. congruence.
  - apply validate_object_id_hex24.
  - intros oid Hoid c1. split; [done|]. split; [done|]. split; [done|]. split.
    + intros l1 d l2 Hdocs Hid Hl1.
      rewrite (get_product_found product_id oid c l1 l2 d) by done.
      split.
      * by apply Product_of_doc_id.
      * intros n p Hn Hp Han Hpp. by apply Product_of_doc_stored.
    + intros Hnone. unfold get_product, bind, lift, find_one. rewrite Hoid.
      unfold ret at 1.
      rewrite (list_find_absent _ (documents c)) by by apply Forall_not_id_matches.
      done.
Qed.

(** C6.  [update_product] with a valid payload and an identifier that the
    codec accepts: when a document has the identifier, the collection
    afterwards holds in its place the document with name and price set to
    those of the payload and every other field as it was, and the handler
    returns that document as it is after the update (the identifier as
    text, the new name and price); when none has it, the handler fails
    with HTTP 404 "Product not found" and the documents are as before.
    The one call the collection receives is the find-and-update by
    identifier: the names of the other documents are not looked at. *)
Theorem update_product_spec (body : Doc) (update_model : Product)
    (product_id : string) (oid : ObjectId) (c : Collection) :
  Product_init body = inr update_model ->
  validate_object_id product_id = inr oid ->
  let c1 := log (call_find_one_and_update {[ "_id" := VObjectId oid ]}
                   (model_dump update_model)) c in
  (forall l1 d l2,
     documents c = (l1 ++ d :: l2)%list -> has_id oid d ->
     Forall (fun d' => ~ has_id oid d') l1 ->
     let d' := <["name" := VStr (name update_model)]>
                 (<["price" := VFloat (price update_model)]> d) in
     let c' := snd (update_product update_model product_id c) in
     update_product update_model product_id c
       = (inr (mkProduct (Some (ObjectId_str oid)) (name update_model) (price update_model)),
          set_documents (l1 ++ d' :: l2)%list c1)
     /\ Product_init (<["_id" := VStr (ObjectId_str oid)]> d')
        = inr (mkProduct (Some (ObjectId_str oid)) (name update_model) (price update_model))
     /\ documents c' = (l1 ++ d' :: l2)%list
     /\ documents c' !! length l1 = Some d'
     /\ d' !! "name" = Some (VStr (name update_model))
     /\ d' !! "price" = Some (VFloat (price update_model))
     /\ (forall k, k <> "name" -> k <> "price" -> d' !! k = d !! k)
     /\ generated c' = generated c
     /\ calls c' = (calls c ++ [call_find_one_and_update {[ "_id" := VObjectId oid ]}
                                  (model_dump update_model)])%list)
  /\ (Forall (fun d' => ~ has_id oid d') (documents c) ->
       let c' := snd (update_product update_model product_id c) in
       update_product update_model product_id c
         = (inl (HTTPException 404 "Product not found"), c1)
       /\ documents c' = documents c
       /\ generated c' = generated c
       /\ calls c' = (calls c ++ [call_find_one_and_update {[ "_id" := VObjectId oid ]}
                                    (model_dump update_model)])%list).
Proof.
  intros Hbody Hoid c1. apply Product_init_valid in Hbody as [Hn Hp]. split.
  - intros l1 d l2 Hdocs Hid Hl1 d' c'.
    assert (has_id oid d') as Hid'.
    { unfold has_id, d'. by rewrite !lookup_insert_ne. }
    assert (d' !! "name" = Some (VStr (name update_model))) as Hname.
    { unfold d'. by rewrite lookup_insert_eq. }
    assert (d' !! "price" = Some (VFloat (price update_model))) as Hprice.
    { unfold d'. by rewrite lookup_insert_ne, lookup_insert_eq. }
    assert (update_product update_model product_id c
            = (inr (mkProduct (Some (ObjectId_str oid)) (name update_model)
                      (price update_model)),
               set_documents (l1 ++ d' :: l2)%list c1)) as Hupd.
    { unfold update_product, bind, lift, find_one_and_update. rewrite Hoid.
      unfold ret at 1.
      rewrite Hdocs, (list_find_middle _ l1 l2 d);
        [|by apply matches_id | by apply Forall_not_id_matches].
      rewrite model_dump_union, insert_middle. fold d'.
      rewrite (truthy_field d' _ _ Hid').
      rewrite (Product_of_doc_stored d' oid _ _ _ Hid' Hname Hprice Hn Hp).
      unfold c1, log. by rewrite Hdocs. }
    split; [exact Hupd|]. split.
    { apply Product_init_stored; try done.
      - by rewrite lookup_insert_eq.
      - by rewrite lookup_insert_ne.
      - by rewrite lookup_insert_ne. }
    unfold c'. rewrite Hupd. cbn [snd].
    split; [reflexivity|]. split.
    { change (documents (set_documents (l1 ++ d' :: l2)%list c1))
        with (l1 ++ d' :: l2)%list. by rewrite list_lookup_middle. }
    split; [done|]. split; [done|]. split.
    { intros k Hk1 Hk2. unfold d'. by rewrite !lookup_insert_ne. }
    split; reflexivity.
  - intros Hnone c'.
    assert (update_product update_model product_id c
            = (inl (HTTPException 404 "Product not found"), c1)) as Hupd.
    { unfold update_product, bind, lift, find_one_and_update.
      rewrite Hoid. unfold ret at 1.
      rewrite (list_find_absent _ (documents c)) by by apply Forall_not_id_matches.
      done. }
    split; [exact Hupd|]. unfold c'. rewrite Hupd. cbn [snd].
    split; [reflexivity|]. split; reflexivity.
Qed.

Lemma update_product_found (update_model : Product) (product_id : string)
    (oid : ObjectId) (c : Collection) (l1 l2 : list Doc) (d : Doc) :
  validate_object_id product_id = inr oid ->
  documents c = (l1 ++ d :: l2)%list ->
  has_id oid d ->
  Forall (fun d' => ~ has_id oid d') l1 ->
  exists r,
    update_product update_model product_id c
      = (r, set_documents
              (l1 ++ <["name" := VStr (name update_model)]>
                       (<["price" := VFloat (price update_model)]> d) :: l2)%list
              (log (call_find_one_and_update {[ "_id" := VObjectId oid ]}
                      (model_dump update_model)) c)).
Proof.
  intros Hoid Hdocs Hid Hl1.
  unfold update_product, bind, lift, find_one_and_update. rewrite Hoid.
  unfold ret at 1.
  rewrite Hdocs, (list_find_middle _ l1 l2 d);
    [|by apply matches_id | by apply Forall_not_id_matches].
  rewrite model_dump_union, insert_middle.
  destruct (truthy _); [|by eexists].
  unfold Product_of_doc, bind, lift.
  destruct (serialized _) as [e|kw]; [by eexists|]. unfold ret at 1.
  destruct (Product_init kw); eexists; unfold log; by rewrite Hdocs.
Qed.

(** C10.  Frame of [update_product]: when the identifier is accepted and
    a document has it, the collection afterwards has the same documents
    in the same places except that one, which keeps its identifier and
    every field other than name and price; no identifier is generated. *)
Theorem update_product_frame (update_model : Product) (product_id : string)
    (oid : ObjectId) (c : Collection) (l1 l2 : list Doc) (d : Doc) :
  validate_object_id product_id = inr oid ->
  documents c = (l1 ++ d :: l2)%list ->
  has_id oid d ->
  Forall (fun d' => ~ has_id oid d') l1 ->
  let c' := snd (update_product update_model product_id c) in
  exists d',
    documents c' = (l1 ++ d' :: l2)%list
    /\ d' !! "_id" = d !! "_id"
    /\ d' !! "name" = Some (VStr (name update_model))
    /\ d' !! "price" = Some (VFloat (price update_model))
    /\ (forall k, k <> "name" -> k <> "price" -> d' !! k = d !! k)
    /\ length (documents c') = length (documents c)
    /\ (forall j, j <> length l1 -> documents c' !! j = documents c !! j)
    /\ generated c' = generated c.
Proof.
  intros Hoid Hdocs Hid Hl1 c'.
  set (d' := <["name" := VStr (name update_model)]>
               (<["price" := VFloat (price update_model)]> d)).
  destruct (update_product_found update_model product_id oid c l1 l2 d)
    as [r Hupd]; [done..|].
  assert (documents c' = (l1 ++ d' :: l2)%list /\ generated c' = generated c) as [Hc' Hgen].
  { unfold c'. by rewrite Hupd. }
  exists d'. split; [done|].
  split; [by unfold d'; rewrite !lookup_insert_ne|].
  split; [by unfold d'; rewrite lookup_insert_eq|].
  split; [by unfold d'; rewrite lookup_insert_ne, lookup_insert_eq|].
  split; [by intros k Hk1 Hk2; unfold d'; rewrite !lookup_insert_ne|].
  split; [by rewrite Hc', Hdocs, !length_app|].
  split; [|done].
  intros j Hj. rewrite Hc', Hdocs.
  destruct (decide (j < length l1)) as [Hlt|Hge].
  - by rewrite !lookup_app_l.
  - rewrite !lookup_app_r by lia.
    destruct (j - length l1) as [|m] eqn:Hm; [lia | done].
Qed.

(** C7.  [delete_product] with an identifier that the codec accepts: when
    exactly one document has the identifier, that document is removed and
    the confirmation is returned, and deleting the same identifier again
    fails with HTTP 404 "Product not found"; when no document has the
    identifier, the handler fails with HTTP 404 "Product not found". *)
Theorem delete_product_spec (product_id : string) (oid : ObjectId) (c : Collection) :
  validate_object_id product_id = inr oid ->
  let c1 := log (call_delete_one {[ "_id" := VObjectId oid ]}) c in
  (forall l1 d l2,
     documents c = (l1 ++ d :: l2)%list -> has_id oid d ->
     Forall (fun d' => ~ has_id oid d') (l1 ++ l2)%list ->
     delete_product product_id c
       = (inr {[ "message" := VStr "Product successfully deleted" ]},
          set_documents (l1 ++ l2)%list c1)
     /\ fst (delete_product product_id (snd (delete_product product_id c)))
        = inl (HTTPException 404 "Product not found"))
  /\ (Forall (fun d' => ~ has_id oid d') (documents c) ->
       delete_product product_id c
         = (inl (HTTPException 404 "Product not found"), c1)).
Proof.
  intros Hoid c1.
  assert (forall c0, Forall (fun d' => ~ has_id oid d') (documents c0) ->
            delete_product product_id c0
              = (inl (HTTPException 404 "Product not found"),
                 log (call_delete_one {[ "_id" := VObjectId oid ]}) c0)) as Habsent.
  { intros c0 Hnone. unfold delete_product, bind, lift, delete_one. rewrite Hoid.
    unfold ret at 1.
    rewrite (list_find_absent _ (documents c0)) by by apply Forall_not_id_matches.
    done. }
  split; [|apply Habsent].
  intros l1 d l2 Hdocs Hid Hrest.
  assert (delete_product product_id c
          = (inr {[ "message" := VStr "Product successfully deleted" ]},
             set_documents (l1 ++ l2)%list c1)) as Hfirst.
  { unfold delete_product, bind, lift, delete_one. rewrite Hoid. unfold ret at 1.
    rewrite Hdocs, (list_find_middle _ l1 l2 d);
      [|by apply matches_id | apply Forall_not_id_matches; by apply Forall_app in Hrest as [? _]].
    rewrite delete_at_middle. simpl.
    unfold c1, log, ret. by rewrite Hdocs. }
  split; [done|].
  rewrite Hfirst. simpl. by rewrite Habsent.
Qed.

(** What [create_product] does when neither the name nor the generated
    identifier is in the collection. *)
Lemma create_product_inserts (product : Product) (c : Collection) :
  valid_product product ->
  Forall (fun d => ~ has_name (name product) d) (documents c) ->
  Forall (fun d => ~ has_id (new_ObjectId (generated c)) d) (documents c) ->
  let oid := new_ObjectId (generated c) in
  let new := <["_id" := VObjectId oid]> (model_dump product) in
  exists c1,
    create_product product c
      = (inr (mkProduct (Some (ObjectId_str oid)) (name product) (price product)), c1)
    /\ documents c1 = (documents c ++ [new])%list
    /\ generated c1 = S (generated c).
Proof.
  intros [Hn Hp] Hname Hfresh oid new.
  assert (has_id oid new) as Hid by (unfold has_id, new; by rewrite lookup_insert_eq).
  assert (new !! "name" = Some (VStr (name product))) as Hnew_name.
  { unfold new, model_dump. by rewrite lookup_insert_ne, lookup_insert_eq. }
  assert (new !! "price" = Some (VFloat (price product))) as Hnew_price.
  { unfold new, model_dump. by rewrite !lookup_insert_ne, lookup_singleton_eq. }
  set (c0 := log (call_find_one {[ "name" := VStr (name product) ]}) c).
  assert (exists c1, insert_one (model_dump product) c0 = (inr (VObjectId oid), c1)
                     /\ documents c1 = (documents c ++ [new])%list
                     /\ generated c1 = S (generated c)) as (c1 & Hins & Hdocs & Hgen).
  { eexists. unfold insert_one.
    replace (model_dump product !! "_id") with (@None value) by done.
    cbn [c0 log documents generated calls]. fold oid.
    rewrite decide_False; [by fold new|].
    rewrite Exists_exists. intros (d & Hd & Hd').
    eapply Forall_forall in Hfresh; [|exact Hd]. by apply Hfresh. }
  exists (log (call_find_one {[ "_id" := VObjectId oid ]}) c1).
  split; [|done].
  unfold create_product, bind.
  rewrite find_one_absent by by apply Forall_not_name_matches.
  fold c0. unfold truthy at 1. rewrite Hins.
  rewrite (find_one_found _ c1 (documents c) [] new);
    [|done|by apply matches_id|by apply Forall_not_id_matches].
  by apply Product_of_doc_stored.
Qed.

(** C8.  Round trip: for a valid payload whose name is not in the
    collection (and a generated identifier of 12 bytes that the collection
    does not hold yet), [create_product] succeeds, and [get_product] on the
    identifier it returned gives a product with the name and the price of
    the payload and that same identifier. *)
Theorem create_then_get (body : Doc) (product : Product) (c : Collection) :
  Product_init body = inr product ->
  Forall (fun d => ~ has_name (name product) d) (documents c) ->
  length (binary (new_ObjectId (generated c))) = 12 ->
  Forall (fun d => ~ has_id (new_ObjectId (generated c)) d) (documents c) ->
  exists created c1 returned_id fetched c2,
    create_product product c = (inr created, c1)
    /\ id created = Some returned_id
    /\ name created = name product /\ price created = price product
    /\ get_product returned_id c1 = (inr fetched, c2)
    /\ name fetched = name product /\ price fetched = price product
    /\ id fetched = Some returned_id.
Proof.
  intros Hbody Hname Hlen Hfresh.
  pose proof (Product_init_valid _ _ Hbody) as Hvalid.
  destruct (create_product_inserts product c Hvalid Hname Hfresh)
    as (c1 & Hcreate & Hdocs & _).
  set (oid := new_ObjectId (generated c)) in *.
  set (new := <["_id" := VObjectId oid]> (model_dump product)) in *.
  assert (has_id oid new) as Hid by (unfold has_id, new; by rewrite lookup_insert_eq).
  destruct Hvalid as [Hn Hp].
  eexists _, c1, (ObjectId_str oid), _, _.
  split; [exact Hcreate|]. split; [done|]. split; [done|]. split; [done|].
  rewrite (get_product_found (ObjectId_str oid) oid c1 (documents c) [] new);
    [|by apply validate_object_id_str|done|done|done].
  rewrite (Product_of_doc_stored new oid (name product) (price product));
    [done|done| | |done|done].
  - unfold new, model_dump. by rewrite lookup_insert_ne, lookup_insert_eq.
  - unfold new, model_dump. by rewrite !lookup_insert_ne, lookup_singleton_eq.
Qed.

(** ** The invariant of the collection *)

Lemma preserves_ret {A} I (a : A) : preserves I (ret a).
Proof. by intros c Hc. Qed.

Lemma preserves_raise {A} I e : preserves I (@raise A e).
Proof. by intros c Hc. Qed.

Lemma preserves_lift {A} I (r : Exception + A) : preserves I (lift r).
Proof. destruct r; [apply preserves_raise | apply preserves_ret]. Qed.

Lemma preserves_bind {A B} I (m : M A) (k : A -> M B) :
  preserves I m -> (forall a, preserves I (k a)) -> preserves I (bind m k).
Proof.
  intros Hm Hk c Hc. unfold bind. specialize (Hm c Hc).
  destruct (m c) as [[e|a] c']; simpl in *; [done | by apply Hk].
Qed.

Lemma find_one_preserves flt : preserves store_ok (find_one flt).
Proof. by intros c Hc. Qed.

Lemma stored_product_dump (p : Product) (d : Doc) :
  valid_product p -> stored_product (model_dump p ∪ d).
Proof.
  intros [Hn Hp]. exists (name p), (price p). rewrite model_dump_union.
  split; [by rewrite lookup_insert_eq|].
  split; [by rewrite lookup_insert_ne, lookup_insert_eq|]. done.
Qed.

Lemma insert_one_preserves (p : Product) :
  valid_product p -> preserves store_ok (insert_one (model_dump p)).
Proof.
  intros [Hn Hp] c Hc. unfold insert_one.
  destruct (model_dump p !! "_id") as [v|]; simpl;
    (case_decide; simpl; [done|]); unfold store_ok; simpl;
    (apply Forall_app; split; [done|]); apply Forall_singleton;
    exists (name p), (price p); unfold model_dump;
    (split; [by rewrite lookup_insert_ne, lookup_insert_eq|]);
    (split; [by rewrite !lookup_insert_ne, lookup_singleton_eq|]); done.
Qed.

Lemma find_one_and_update_preserves flt (p : Product) :
  valid_product p -> preserves store_ok (find_one_and_update flt (model_dump p)).
Proof.
  intros Hp c Hc. unfold find_one_and_update.
  destruct (list_find _ _) as [[i d]|]; simpl; [|done].
  apply Forall_insert; [done | by apply stored_product_dump].
Qed.

Lemma delete_one_preserves flt : preserves store_ok (delete_one flt).
Proof.
  intros c Hc. unfold delete_one.
  destruct (list_find _ _) as [[i d]|]; simpl; [|done].
  by apply Forall_delete.
Qed.

Lemma Product_of_doc_preserves doc : preserves store_ok (Product_of_doc doc).
Proof.
  destruct doc as [d|]; [|apply preserves_raise]. simpl.
  apply preserves_bind; [apply preserves_lift|]. intros kw. apply preserves_lift.
Qed.

Lemma get_product_preserves product_id : preserves store_ok (get_product product_id).
Proof.
  apply preserves_bind; [apply preserves_lift|]. intros oid.
  apply preserves_bind; [apply find_one_preserves|]. intros product.
  destruct (truthy product); [apply Product_of_doc_preserves | apply preserves_raise].
Qed.

Lemma create_product_preserves product :
  valid_product product -> preserves store_ok (create_product product).
Proof.
  intros Hp. apply preserves_bind; [apply find_one_preserves|]. intros existing.
  destruct (truthy existing); [apply preserves_raise|].
  apply preserves_bind; [by apply insert_one_preserves|]. intros inserted_id.
  apply preserves_bind; [apply find_one_preserves|]. intros new_product.
  apply Product_of_doc_preserves.
Qed.

Lemma update_product_preserves update_model product_id :
  valid_product update_model ->
  preserves store_ok (update_product update_model product_id).
Proof.
  intros Hp. apply preserves_bind; [apply preserves_lift|]. intros oid.
  apply preserves_bind; [by apply find_one_and_update_preserves|]. intros product.
  destruct (truthy product); [apply Product_of_doc_preserves | apply preserves_raise].
Qed.

Lemma delete_product_preserves product_id :
  preserves store_ok (delete_product product_id).
Proof.
  apply preserves_bind; [apply preserves_lift|]. intros oid.
  apply preserves_bind; [apply delete_one_preserves|]. intros deleted_count.
  destruct (deleted_count =? 1)%Z; [apply preserves_ret | apply preserves_raise].
Qed.

Lemma handle_preserves r : preserves store_ok (handle r).
Proof.
  destruct r as [product_id|body|product_id body|product_id]; simpl.
  - apply preserves_bind; [apply get_product_preserves|]. intros p. apply preserves_ret.
  - intros c Hc. unfold bind at 1.
    destruct (Product_init body) as [e|product] eqn:Hbody; [done|]. simpl.
    revert c Hc. apply preserves_bind; [|intros p; apply preserves_ret].
    apply create_product_preserves. by eapply Product_init_valid.
  - intros c Hc. unfold bind at 1.
    destruct (Product_init body) as [e|update_model] eqn:Hbody; [done|]. simpl.
    revert c Hc. apply preserves_bind; [|intros p; apply preserves_ret].
    apply update_product_preserves. by eapply Product_init_valid.
  - apply preserves_bind; [apply delete_product_preserves|]. intros d. apply preserves_ret.
Qed.

Lemma float_lt_zero_not_le p : float_lt zero p -> ~ float_le p zero.
Proof. intros Hlt Hle. by apply (float_le_zero_not_lt p). Qed.

(** C4.  From a collection whose documents all have an alphabetic name
    and a price above zero, every sequence of requests (get, create,
    update, delete, with any bodies and identifiers) leads to a
    collection whose documents all have an alphabetic name and a price
    above zero: no price that is zero or negative is ever stored. *)
Theorem serve_keeps_products_valid (rs : list Request) (c : Collection) :
  store_ok c ->
  forall d, d ∈ documents (serve rs c) ->
    exists n p, d !! "name" = Some (VStr n) /\ d !! "price" = Some (VFloat p)
                /\ alphabetic n /\ float_lt zero p /\ ~ float_le p zero.
Proof.
  intros Hc.
  assert (store_ok (serve rs c)) as Hok.
  { revert c Hc. induction rs as [|r rs IH]; intros c Hc; [done|].
    simpl. apply IH. by apply handle_preserves. }
  intros d Hd. eapply Forall_forall in Hok; [|exact Hd].
  destruct Hok as (n & p & Hn & Hp & Han & Hpp).
  exists n, p. repeat split; try done; try apply Han.
  by apply float_lt_zero_not_le.
Qed.

(* ===================================================================== *)
(** * Part III: further properties of the code                            *)
(* ===================================================================== *)

(** ** Identifier texts *)

Lemma ascii_lower_facts c :
  hex_digit (ascii_lower c) = hex_digit c /\ is_space (ascii_lower c) = is_space c.
Proof. each_ascii c; split; reflexivity. Qed.

Lemma length_lower s : String.length (lower s) = String.length s.
Proof. induction s as [|c s IH]; simpl; [done | by rewrite IH]. Qed.

Lemma fromhex_lower_bounded n : forall s,
  String.length s <= n -> fromhex (lower s) = fromhex s.
Proof.
  induction n as [|n IH]; intros s Hn.
  - destruct s; [done | simpl in Hn; lia].
  - destruct s as [|c1 s]; [done|].
    destruct (ascii_lower_facts c1) as [Hd1 Hs1].
    cbn [lower fromhex]. rewrite Hs1, Hd1. simpl in Hn.
    destruct (is_space c1); [apply IH; lia|].
    destruct (hex_digit c1) as [top|]; [|by destruct (lower s)].
    destruct s as [|c2 s]; [done|].
    destruct (ascii_lower_facts c2) as [Hd2 _].
    cbn [lower]. rewrite Hd2. simpl in Hn.
    destruct (hex_digit c2) as [bot|]; [|done].
    rewrite (IH s) by lia. done.
Qed.

(** X1.  Identifier texts are read without regard to case: a string and
    its lower-case form are both refused, or both accepted with the same
    identifier. *)
Theorem validate_object_id_lower (s : string) :
  validate_object_id (lower s) = validate_object_id s.
Proof.
  rewrite !validate_object_id_eq. unfold ObjectId_of_str.
  by rewrite length_lower, (fromhex_lower_bounded (String.length s)).
Qed.

(** X2.  Round trip of the codec: the text [str] gives for an identifier
    of 12 bytes is accepted by [validate_object_id], which returns that
    identifier. *)
Theorem ObjectId_text_round_trip (o : ObjectId) :
  length (binary o) = 12 ->
  validate_object_id (ObjectId_str o) = inr o
  /\ String.length (ObjectId_str o) = 24.
Proof.
  intros Hlen. split; [by apply validate_object_id_str|].
  unfold ObjectId_str. rewrite length_hexlify, Hlen. done.
Qed.

(** X3.  [str] is injective on identifiers, of any length: two
    identifiers with the same text are the same identifier. *)
Theorem ObjectId_str_inj (o1 o2 : ObjectId) :
  ObjectId_str o1 = ObjectId_str o2 <-> o1 = o2.
Proof.
  split; [|by intros ->]. unfold ObjectId_str. intros Heq.
  pose proof (fromhex_hexlify (binary o1)) as H1.
  rewrite Heq, fromhex_hexlify in H1. injection H1 as H1.
  destruct o1, o2; simpl in *. by subst.
Qed.

Lemma hex_text_length s bs :
  hex_text s bs ->
  2 * length bs <= String.length s
  /\ (2 * length bs = String.length s -> string_forallb is_hexdigit s = true).
Proof.
  induction 1 as [|c s bs Hsp _ [IH1 IH2]|c1 c2 top bot s bs H1 H2 _ [IH1 IH2]]; simpl.
  - done.
  - split; lia.
  - destruct (hex_digit_facts _ _ H1) as (_ & _ & _ & Hd1).
    destruct (hex_digit_facts _ _ H2) as (_ & _ & _ & Hd2).
    split; [lia|]. intros Hlen. rewrite Hd1, Hd2. apply IH2. lia.
Qed.

(** X4.  An identifier that [validate_object_id] returns has at most 12
    bytes, and it has 12 bytes exactly when the string is 24 hexadecimal
    digits: the other strings that are accepted give a shorter
    identifier. *)
Theorem validate_object_id_length (s : string) (o : ObjectId) :
  validate_object_id s = inr o ->
  length (binary o) <= 12
  /\ (length (binary o) = 12 <-> is_hex24 s = true).
Proof.
  rewrite validate_object_id_eq.
  destruct (ObjectId_of_str s) as [o'|] eqn:E; [|discriminate].
  intros [= ->]. apply ObjectId_of_str_Some in E as [Hlen Hbs].
  pose proof Hbs as Htext. apply fromhex_hex_text, hex_text_length in Htext as [Hle Hall].
  split; [lia|]. split.
  - intros H12. unfold is_hex24. rewrite Hlen. simpl. apply Hall. lia.
  - intros Hs. apply andb_true_iff in Hs as [_ Hhex].
    destruct (fromhex_digits 12 s Hlen Hhex) as (bs & Hbs' & Hn & _).
    congruence.
Qed.

(** ** The serializer and the model *)

(** X5.  [serialize_doc] fails exactly on a document without [_id]: the
    log line reads the field before the copy is made, so the failure is a
    [KeyError] for [_id] and no object is allocated or changed; with the
    field present, whatever its value, a copy is returned. *)
Theorem serialize_doc_KeyError (h : heap) (doc : positive) (d : Doc) :
  h !! doc = Some d ->
  (d !! "_id" = None <-> serialize_doc doc h = (inl (KeyError "_id"), h))
  /\ (is_Some (d !! "_id") <-> exists doc' h', serialize_doc doc h = (inr doc', h')).
Proof.
  intros Hd. unfold serialize_doc. rewrite Hd.
  destruct (d !! "_id") as [v|] eqn:Hid.
  - rewrite lookup_insert_eq. simpl. rewrite Hid. split; split; try done.
    intros _. by eexists _, _.
  - split; split; try done.
    intros (? & ? & ?). discriminate.
Qed.

(** X6.  Serializing twice changes nothing more: [serialize_doc] applied
    to the copy it returned gives a second copy with the contents of the
    first, and leaves the first as it is. *)
Theorem serialize_doc_twice (h h1 : heap) (doc doc1 : positive) (d : Doc) :
  h !! doc = Some d ->
  serialize_doc doc h = (inr doc1, h1) ->
  exists (d1 : Doc) (doc2 : positive) (h2 : heap),
    h1 !! doc1 = Some d1
    /\ serialize_doc doc1 h1 = (inr doc2, h2)
    /\ doc2 <> doc1
    /\ h2 !! doc2 = Some d1
    /\ h2 !! doc1 = Some d1.
Proof.
  intros Hd Hser.
  pose proof (serialize_doc_serialized h doc d Hd) as Hrel. rewrite Hser in Hrel.
  unfold serialized in Hrel. destruct (d !! "_id") as [v|] eqn:Hid; [|done].
  set (d1 := <["_id" := VStr (py_str v)]> d) in *.
  assert (d1 !! "_id" = Some (VStr (py_str v))) as Hid1 by (unfold d1; by rewrite lookup_insert_eq).
  assert (serialized d1 = inr d1) as Hfix.
  { unfold serialized. rewrite Hid1. simpl. f_equal. by apply insert_id. }
  pose proof (serialize_doc_serialized h1 doc1 d1 Hrel) as Hrel2.
  rewrite Hfix in Hrel2.
  destruct (serialize_doc doc1 h1) as [[e|doc2] h2] eqn:Hser2; [done|].
  exists d1, doc2, h2. split; [done|]. split; [done|].
  unfold serialize_doc in Hser2. rewrite Hrel, Hid1 in Hser2.
  rewrite lookup_insert_eq in Hser2. simpl in Hser2. rewrite Hid1 in Hser2.
  injection Hser2 as <- <-.
  assert (h1 !! fresh (dom h1) = None) as Hfresh by apply not_elem_of_dom, is_fresh.
  assert (fresh (dom h1) <> doc1) as Hne by congruence.
  split; [done|]. split; [done|].
  by rewrite lookup_alter_ne, lookup_insert_ne.
Qed.

(** X7.  A document as the store holds it, with a native identifier, is
    not accepted by Product: construction fails with a ValidationError
    that names [_id], whatever the other fields are.  The identifier has
    to be serialized first. *)
Theorem Product_rejects_native_id (kw : Doc) (o : ObjectId) :
  has_id o kw ->
  exists fields, Product_init kw = inl (ValidationError fields) /\ "_id" ∈ fields.
Proof.
  intros Hid. unfold Product_init. rewrite Hid. simpl.
  destruct (validate_name _), (validate_price _); eexists; split; try done;
    simpl; apply list_elem_of_here.
Qed.

(** X8.  What [model_dump] writes for a validated product has the name
    and the price and no identifier, under either key; validating the
    dump gives the product back with its name and price and without
    identifier. *)
Theorem model_dump_round_trip (kw : Doc) (p : Product) :
  Product_init kw = inr p ->
  dom (model_dump p) = ({[ "name"; "price" ]} : gset string)
  /\ model_dump p !! "_id" = None /\ model_dump p !! "id" = None
  /\ Product_init (model_dump p) = inr (mkProduct None (name p) (price p)).
Proof.
  intros Hp. apply Product_init_valid in Hp as [Hn Hpos].
  destruct (name_price_lookups (name p) (price p)) as (Hid & Hid' & Hname & Hprice).
  fold (model_dump p) in Hid, Hid', Hname, Hprice.
  split; [|split; [done|split; [done|]]].
  - unfold model_dump. rewrite dom_insert_L, dom_singleton_L. done.
  - apply Product_init_fields.
    + by rewrite Hid, Hid'.
    + rewrite Hname. by apply validate_name_Some.
    + rewrite Hprice. by apply validate_price_float.
Qed.

(** ** The handlers, one request after another *)

Lemma Product_of_doc_snd doc c : snd (Product_of_doc doc c) = c.
Proof.
  destruct doc as [d|]; [|done]. unfold Product_of_doc, bind, lift.
  destruct (serialized d) as [e|kw]; [done|]. simpl.
  by destruct (Product_init kw).
Qed.

Lemma not_matches_name n (l : list Doc) :
  Forall (fun d => ~ matches {[ "name" := VStr n ]} d) l ->
  Forall (fun d => ~ has_name n d) l.
Proof.
  intros Hl. eapply Forall_impl; [exact Hl|].
  intros d Hd Hn. by apply Hd, matches_name.
Qed.

Lemma not_matches_id o (l : list Doc) :
  Forall (fun d => ~ matches {[ "_id" := VObjectId o ]} d) l ->
  Forall (fun d => ~ has_id o d) l.
Proof.
  intros Hl. eapply Forall_impl; [exact Hl|].
  intros d Hd Hn. by apply Hd, matches_id.
Qed.

Lemma create_product_taken (product : Product) (c : Collection) (d : Doc) :
  d ∈ documents c ->
  has_name (name product) d ->
  create_product product c
    = (inl (HTTPException 400 "Product already exists"),
       log (call_find_one {[ "name" := VStr (name product) ]}) c).
Proof.
  intros Hin Hname.
  destruct (list_find_elem_of (matches {[ "name" := VStr (name product) ]})
              (documents c) d) as [[i d'] Hfind]; [done | by apply matches_name |].
  pose proof (list_find_In _ _ _ _ Hfind) as [_ Hd'%matches_name].
  unfold create_product, bind, find_one. rewrite Hfind. simpl.
  by rewrite (truthy_field d' _ _ Hd').
Qed.

Lemma insert_one_dump (product : Product) (c : Collection) :
  let oid := new_ObjectId (generated c) in
  let c1 := {| documents := documents c; generated := S (generated c);
               calls := calls c ++ [call_insert_one (model_dump product)] |} in
  insert_one (model_dump product) c
    = if decide (Exists (fun d : Doc => d !! "_id" = Some (VObjectId oid)) (documents c))
      then (inl DuplicateKeyError, c1)
      else (inr (VObjectId oid),
            set_documents
              (documents c ++ [<["_id" := VObjectId oid]> (model_dump product)]) c1).
Proof.
  unfold insert_one.
  by replace (model_dump product !! "_id") with (@None value) by done.
Qed.

(** The three ways [create_product] runs: the name is taken; the name is
    free and the generated identifier is taken; both are free and the new
    document is appended. *)
Lemma create_product_run (product : Product) (c : Collection) :
  let oid := new_ObjectId (generated c) in
  let new := <["_id" := VObjectId oid]> (model_dump product) in
  (exists d, d ∈ documents c /\ has_name (name product) d
             /\ create_product product c
                = (inl (HTTPException 400 "Product already exists"),
                   log (call_find_one {[ "name" := VStr (name product) ]}) c))
  \/ (Forall (fun d => ~ has_name (name product) d) (documents c)
      /\ (exists d, d ∈ documents c /\ has_id oid d)
      /\ exists c',
           create_product product c = (inl DuplicateKeyError, c')
           /\ documents c' = documents c)
  \/ (Forall (fun d => ~ has_name (name product) d) (documents c)
      /\ Forall (fun d => ~ has_id oid d) (documents c)
      /\ exists c',
           create_product product c = Product_of_doc (Some new) c'
           /\ documents c' = (documents c ++ [new])%list
           /\ generated c' = S (generated c)
           /\ calls c' = (calls c ++ [call_find_one {[ "name" := VStr (name product) ]};
                                      call_insert_one (model_dump product);
                                      call_find_one {[ "_id" := VObjectId oid ]}])%list).
Proof.
  intros oid new.
  destruct (list_find (matches {[ "name" := VStr (name product) ]}) (documents c))
    as [[i d]|] eqn:Hfind.
  { left. apply list_find_In in Hfind as [Hi Hd%matches_name].
    exists d. split; [by eapply list_elem_of_lookup_2|]. split; [done|].
    apply create_product_taken with d; [by eapply list_elem_of_lookup_2 | done]. }
  right. apply list_find_None in Hfind. pose proof (not_matches_name _ _ Hfind) as Hfree.
  assert (has_id oid new) as Hid by (unfold has_id, new; by rewrite lookup_insert_eq).
  assert (create_product product c
          = (let! inserted_id := insert_one (model_dump product) in
             let! new_product := find_one {[ "_id" := inserted_id ]} in
             Product_of_doc new_product)
              (log (call_find_one {[ "name" := VStr (name product) ]}) c)) as ->.
  { unfold create_product, bind at 1. by rewrite find_one_absent by done. }
  destruct (decide (Exists (fun d : Doc => d !! "_id" = Some (VObjectId oid)) (documents c)))
    as [Hdup|Hnew].
  { left. split; [done|]. split; [by apply Exists_exists in Hdup|].
    eexists. split.
    - unfold bind at 1. rewrite insert_one_dump.
      cbn [log documents generated calls]. fold oid.
      rewrite decide_True by done. reflexivity.
    - done. }
  right. split; [done|].
  assert (Forall (fun d => ~ has_id oid d) (documents c)) as Hfresh.
  { apply Forall_forall. intros d Hd Hd'. apply Hnew, Exists_exists. by exists d. }
  split; [done|]. eexists. split.
  - unfold bind at 1. rewrite insert_one_dump.
    cbn [log documents generated calls]. fold oid. fold new.
    rewrite decide_False by done. unfold bind.
    rewrite (find_one_found _ _ (documents c) [] new);
      [|done|by apply matches_id|by apply Forall_not_id_matches].
    reflexivity.
  - split; [done|]. split; [done|]. simpl. by rewrite <- !app_assoc.
Qed.

(** X9.  When neither the name nor the generated identifier is in the
    collection, [create_product] appends exactly one document: it has the
    fields [_id], [name] and [price] and nothing else, the identifier is
    the generated one, the documents that were there keep their places,
    and the calls made are the look-up by name, the insert, and the
    re-read by identifier, in this order. *)
Theorem create_product_appends (product : Product) (c : Collection) :
  Forall (fun d => ~ has_name (name product) d) (documents c) ->
  Forall (fun d => ~ has_id (new_ObjectId (generated c)) d) (documents c) ->
  let oid := new_ObjectId (generated c) in
  let c' := snd (create_product product c) in
  exists new : Doc,
    documents c' = (documents c ++ [new])%list
    /\ dom new = ({[ "_id"; "name"; "price" ]} : gset string)
    /\ new !! "_id" = Some (VObjectId oid)
    /\ new !! "name" = Some (VStr (name product))
    /\ new !! "price" = Some (VFloat (price product))
    /\ generated c' = S (generated c)
    /\ calls c' = (calls c ++ [call_find_one {[ "name" := VStr (name product) ]};
                               call_insert_one (model_dump product);
                               call_find_one {[ "_id" := VObjectId oid ]}])%list.
Proof.
  intros Hname Hfresh oid c'.
  destruct (create_product_run product c)
    as [(d & Hd & Hdn & _)|[(_ & (d & Hd & Hdi) & _)|(_ & _ & c1 & Hrun & Hdocs & Hgen & Hcalls)]].
  - eapply Forall_forall in Hname; [|exact Hd]. done.
  - eapply Forall_forall in Hfresh; [|exact Hd]. done.
  - exists (<["_id" := VObjectId oid]> (model_dump product)).
    assert (c' = c1) as -> by (unfold c'; by rewrite Hrun, Product_of_doc_snd).
    split; [done|]. split.
    { unfold model_dump. rewrite !dom_insert_L, dom_singleton_L. done. }
    split; [by rewrite lookup_insert_eq|].
    split; [unfold model_dump; by rewrite lookup_insert_ne, lookup_insert_eq|].
    split; [unfold model_dump; by rewrite !lookup_insert_ne, lookup_singleton_eq|].
    done.
Qed.

(** X10.  Once [create_product] has succeeded for a product, creating a
    product of the same name fails with HTTP 400 "Product already exists"
    and leaves the documents as they are. *)
Theorem create_product_twice (product again : Product) (c c1 : Collection) (created : Product) :
  create_product product c = (inr created, c1) ->
  name again = name product ->
  exists c2,
    create_product again c1 = (inl (HTTPException 400 "Product already exists"), c2)
    /\ documents c2 = documents c1.
Proof.
  intros Hcreate Hsame.
  destruct (create_product_run product c)
    as [(d & _ & _ & Hrun)|[(_ & _ & c' & Hrun & _)|(_ & _ & c' & Hrun & Hdocs & _)]].
  - rewrite Hcreate in Hrun. discriminate.
  - rewrite Hcreate in Hrun. discriminate.
  - assert (c1 = c') as ->.
    { pose proof (Product_of_doc_snd (Some (<["_id" := VObjectId (new_ObjectId (generated c))]>
                                              (model_dump product))) c') as Hsnd.
      rewrite <- Hrun, Hcreate in Hsnd. done. }
    eexists. split.
    + apply create_product_taken
        with (<["_id" := VObjectId (new_ObjectId (generated c))]> (model_dump product)).
      * rewrite Hdocs. apply elem_of_app. right. apply list_elem_of_here.
      * unfold has_name, model_dump. rewrite Hsame.
        by rewrite lookup_insert_ne, lookup_insert_eq.
    + done.
Qed.


Lemma Product_of_doc_fst doc c c' :
  fst (Product_of_doc doc c) = fst (Product_of_doc doc c').
Proof.
  destruct doc as [d|]; [|done]. unfold Product_of_doc, bind, lift.
  destruct (serialized d) as [e|kw]; [done|]. simpl.
  by destruct (Product_init kw).
Qed.

(** The first document with an identifier, when there is one. *)
Lemma first_with_id (o : ObjectId) (docs : list Doc) :
  Forall (fun d => ~ has_id o d) docs
  \/ exists l1 d l2, docs = (l1 ++ d :: l2)%list /\ has_id o d
                     /\ Forall (fun d' => ~ has_id o d') l1.
Proof.
  destruct (list_find (matches {[ "_id" := VObjectId o ]}) docs) as [[i d]|] eqn:Hfind.
  - right. apply list_find_Some in Hfind as (Hi & Hd & Hbefore).
    exists (take i docs), d, (drop (S i) docs).
    split; [by rewrite take_drop_middle|]. split; [by apply matches_id|].
    apply Forall_lookup. intros j d' Hj Hd'.
    apply lookup_take_Some in Hj as [Hj Hlt].
    apply (Hbefore j d' Hj Hlt). by apply matches_id.
  - left. apply list_find_None in Hfind. by apply not_matches_id.
Qed.

Lemma update_product_run (update_model : Product) (product_id : string)
    (oid : ObjectId) (c : Collection) (l1 l2 : list Doc) (d : Doc) :
  validate_object_id product_id = inr oid ->
  documents c = (l1 ++ d :: l2)%list ->
  has_id oid d ->
  Forall (fun d' => ~ has_id oid d') l1 ->
  let d' := <["name" := VStr (name update_model)]>
              (<["price" := VFloat (price update_model)]> d) in
  has_id oid d'
  /\ update_product update_model product_id c
     = Product_of_doc (Some d')
         (set_documents (l1 ++ d' :: l2)%list
            (log (call_find_one_and_update {[ "_id" := VObjectId oid ]}
                    (model_dump update_model)) c)).
Proof.
  intros Hoid Hdocs Hid Hl1 d'.
  assert (has_id oid d') as Hid' by (unfold has_id, d'; by rewrite !lookup_insert_ne).
  split; [done|].
  unfold update_product, bind, lift, find_one_and_update. rewrite Hoid.
  unfold ret at 1.
  rewrite Hdocs, (list_find_middle _ l1 l2 d);
    [|by apply matches_id | by apply Forall_not_id_matches].
  rewrite model_dump_union, insert_middle. fold d'.
  rewrite (truthy_field d' _ _ Hid'). unfold log. by rewrite Hdocs.
Qed.

Lemma update_product_absent (update_model : Product) (product_id : string)
    (oid : ObjectId) (c : Collection) :
  validate_object_id product_id = inr oid ->
  Forall (fun d' => ~ has_id oid d') (documents c) ->
  update_product update_model product_id c
    = (inl (HTTPException 404 "Product not found"),
       log (call_find_one_and_update {[ "_id" := VObjectId oid ]}
              (model_dump update_model)) c).
Proof.
  intros Hoid Hnone. unfold update_product, bind, lift, find_one_and_update.
  rewrite Hoid. unfold ret at 1.
  by rewrite (list_find_absent _ (documents c)) by by apply Forall_not_id_matches.
Qed.

Lemma update_product_refused (update_model : Product) (product_id : string)
    (c : Collection) e :
  validate_object_id product_id = inl e ->
  update_product update_model product_id c
    = (inl (HTTPException 400 "Invalid ObjectId"), c).
Proof.
  intros He. pose proof (validate_object_id_inl _ _ He) as ->.
  unfold update_product, bind, lift. by rewrite He.
Qed.

Lemma delete_product_refused (product_id : string) (c : Collection) e :
  validate_object_id product_id = inl e ->
  delete_product product_id c = (inl (HTTPException 400 "Invalid ObjectId"), c).
Proof.
  intros He. pose proof (validate_object_id_inl _ _ He) as ->.
  unfold delete_product, bind, lift. by rewrite He.
Qed.

(** X12.  [update_product] and [delete_product] with a string that the
    codec refuses fail with HTTP 400 "Invalid ObjectId" before the
    collection is reached: no call is made and nothing is written,
    whatever the payload. *)
Theorem refused_id_reaches_nothing (update_model : Product) (product_id : string)
    (c : Collection) (e : Exception) :
  validate_object_id product_id = inl e ->
  update_product update_model product_id c
    = (inl (HTTPException 400 "Invalid ObjectId"), c)
  /\ delete_product product_id c
     = (inl (HTTPException 400 "Invalid ObjectId"), c).
Proof.
  intros He. split; [by eapply update_product_refused | by eapply delete_product_refused].
Qed.

(** X13.  [update_product] is idempotent: the same update sent a second
    time returns what the first returned and leaves the documents as the
    first left them. *)
Theorem update_product_idempotent (update_model : Product) (product_id : string)
    (c : Collection) :
  let once := update_product update_model product_id c in
  let twice := update_product update_model product_id (snd once) in
  fst twice = fst once /\ documents (snd twice) = documents (snd once).
Proof.
  intros once twice. unfold twice, once. clear once twice.
  destruct (validate_object_id product_id) as [e|oid] eqn:Hoid.
  { rewrite (update_product_refused _ _ c e Hoid). cbn [fst snd].
    by rewrite (update_product_refused _ _ c e Hoid). }
  destruct (first_with_id oid (documents c)) as [Hnone|(l1 & d & l2 & Hdocs & Hid & Hl1)].
  { rewrite (update_product_absent _ _ oid c Hoid Hnone). cbn [fst snd].
    by rewrite (update_product_absent _ _ oid (log _ c) Hoid Hnone). }
  destruct (update_product_run update_model _ _ c l1 l2 d Hoid Hdocs Hid Hl1) as [Hid' ->].
  set (d' := <["name" := VStr (name update_model)]>
               (<["price" := VFloat (price update_model)]> d)) in *.
  rewrite Product_of_doc_snd.
  destruct (update_product_run update_model product_id oid
              (set_documents (l1 ++ d' :: l2)%list
                 (log (call_find_one_and_update {[ "_id" := VObjectId oid ]}
                         (model_dump update_model)) c))
              l1 l2 d' Hoid eq_refl Hid' Hl1) as [_ ->].
  assert (<["name" := VStr (name update_model)]>
            (<["price" := VFloat (price update_model)]> d') = d') as ->.
  { apply map_eq. intros k. unfold d'.
    destruct (decide (k = "name")) as [->|Hk1]; [by rewrite !lookup_insert_eq|].
    rewrite !(lookup_insert_ne _ "name") by done.
    destruct (decide (k = "price")) as [->|Hk2]; [by rewrite !lookup_insert_eq|].
    rewrite !(lookup_insert_ne _ "price") by done.
    by rewrite !lookup_insert_ne by done. }
  split; [apply Product_of_doc_fst | by rewrite !Product_of_doc_snd].
Qed.

(** X14.  What [update_product] returned is what [get_product] then
    returns for the same identifier: a successful update is read back
    unchanged. *)
Theorem update_then_get (update_model : Product) (product_id : string)
    (c c1 : Collection) (p : Product) :
  update_product update_model product_id c = (inr p, c1) ->
  fst (get_product product_id c1) = inr p.
Proof.
  intros Hupd.
  destruct (validate_object_id product_id) as [e|oid] eqn:Hoid.
  { rewrite (update_product_refused _ _ c e Hoid) in Hupd. discriminate. }
  destruct (first_with_id oid (documents c)) as [Hnone|(l1 & d & l2 & Hdocs & Hid & Hl1)].
  { rewrite (update_product_absent _ _ oid c Hoid Hnone) in Hupd. discriminate. }
  destruct (update_product_run update_model _ _ c l1 l2 d Hoid Hdocs Hid Hl1) as [Hid' Hrun].
  set (d' := <["name" := VStr (name update_model)]>
               (<["price" := VFloat (price update_model)]> d)) in *.
  assert (documents c1 = (l1 ++ d' :: l2)%list) as Hdocs1.
  { pose proof (Product_of_doc_snd (Some d')
                  (set_documents (l1 ++ d' :: l2)%list
                     (log (call_find_one_and_update {[ "_id" := VObjectId oid ]}
                             (model_dump update_model)) c))) as Hsnd.
    rewrite <- Hrun, Hupd in Hsnd. simpl in Hsnd. by rewrite Hsnd. }
  rewrite (get_product_found product_id oid c1 l1 l2 d' Hoid Hdocs1 Hid' Hl1).
  rewrite Hupd in Hrun.
  erewrite Product_of_doc_fst. by rewrite <- Hrun.
Qed.

(** X15.  What [delete_product] removes: when it returns the
    confirmation, exactly the first document with the identifier is gone
    and every other document is in place; when it fails, with HTTP 400 or
    404 and nothing else, no document is removed.  It never generates an
    identifier. *)
Theorem delete_product_removes_one (product_id : string) (c : Collection) :
  let r := delete_product product_id c in
  (forall m, fst r = inr m ->
     m = {[ "message" := VStr "Product successfully deleted" ]}
     /\ exists oid l1 d l2,
          validate_object_id product_id = inr oid
          /\ documents c = (l1 ++ d :: l2)%list /\ has_id oid d
          /\ Forall (fun d' => ~ has_id oid d') l1
          /\ documents (snd r) = (l1 ++ l2)%list)
  /\ (forall e, fst r = inl e ->
        documents (snd r) = documents c
        /\ (e = HTTPException 400 "Invalid ObjectId"
            \/ e = HTTPException 404 "Product not found"))
  /\ generated (snd r) = generated c.
Proof.
  intros r. unfold r. clear r.
  destruct (validate_object_id product_id) as [e|oid] eqn:Hoid.
  { rewrite (delete_product_refused _ c e Hoid). simpl.
    split; [discriminate|]. split; [|done]. intros ? [= <-]. auto. }
  destruct (first_with_id oid (documents c)) as [Hnone|(l1 & d & l2 & Hdocs & Hid & Hl1)].
  - assert (delete_product product_id c
            = (inl (HTTPException 404 "Product not found"),
               log (call_delete_one {[ "_id" := VObjectId oid ]}) c)) as ->.
    { unfold delete_product, bind, lift, delete_one. rewrite Hoid. unfold ret at 1.
      by rewrite (list_find_absent _ (documents c)) by by apply Forall_not_id_matches. }
    simpl. split; [discriminate|]. split; [|done]. intros ? [= <-]. auto.
  - assert (delete_product product_id c
            = (inr {[ "message" := VStr "Product successfully deleted" ]},
               set_documents (l1 ++ l2)%list
                 (log (call_delete_one {[ "_id" := VObjectId oid ]}) c))) as ->.
    { unfold delete_product, bind, lift, delete_one. rewrite Hoid. unfold ret at 1.
      rewrite Hdocs, (list_find_middle _ l1 l2 d);
        [|by apply matches_id | by apply Forall_not_id_matches].
      rewrite delete_at_middle. simpl. unfold log, ret. by rewrite Hdocs. }
    simpl. split; [|split; [discriminate|done]].
    intros m [= <-]. split; [done|]. by exists oid, l1, d, l2.
Qed.



(** ** Identifiers stay distinct *)

Lemma omap_sublist {A B} (f : A -> option B) (l1 l2 : list A) :
  sublist l1 l2 -> sublist (omap f l1) (omap f l2).
Proof.
  induction 1 as [|x l1 l2 _ IH|x l1 l2 _ IH]; simpl.
  - constructor.
  - destruct (f x); [by constructor | done].
  - destruct (f x); [by constructor | done].
Qed.

Lemma doc_ids_insert (docs : list Doc) i (d d' : Doc) :
  docs !! i = Some d -> d' !! "_id" = d !! "_id" ->
  doc_ids (<[i := d']> docs) = doc_ids docs.
Proof.
  unfold doc_ids. revert i. induction docs as [|x docs IH]; intros [|i] Hi Hid; try done.
  - simpl in *. injection Hi as ->. by rewrite Hid.
  - simpl in *. destruct (x !! "_id"); [f_equal|]; by apply IH.
Qed.

Lemma find_one_unique_ids flt :
  preserves (fun c => unique_ids (documents c)) (find_one flt).
Proof. by intros c Hc. Qed.

Lemma insert_one_unique_ids doc :
  preserves (fun c => unique_ids (documents c)) (insert_one doc).
Proof.
  intros c Hc. unfold insert_one.
  set (v := match doc !! "_id" with
            | Some v => (v, generated c)
            | None => (VObjectId (new_ObjectId (generated c)), S (generated c))
            end).
  destruct v as [oid gen]. case_decide as Hdup; simpl; [done|].
  unfold unique_ids, doc_ids in *. rewrite omap_app. simpl.
  rewrite lookup_insert_eq. apply NoDup_app. split; [done|]. split.
  - intros x Hx Hx'. apply list_elem_of_singleton in Hx' as ->.
    apply list_elem_of_omap in Hx as (d & Hd & Hid).
    apply Hdup, Exists_exists. by exists d.
  - apply NoDup_singleton.
Qed.

Lemma find_one_and_update_unique_ids flt (p : Product) :
  preserves (fun c => unique_ids (documents c)) (find_one_and_update flt (model_dump p)).
Proof.
  intros c Hc. unfold find_one_and_update.
  destruct (list_find _ _) as [[i d]|] eqn:Hfind; simpl; [|done].
  apply list_find_In in Hfind as [Hi _].
  unfold unique_ids. rewrite (doc_ids_insert _ i d); [done|done|].
  by rewrite lookup_union_r.
Qed.

Lemma delete_one_unique_ids flt :
  preserves (fun c => unique_ids (documents c)) (delete_one flt).
Proof.
  intros c Hc. unfold delete_one.
  destruct (list_find _ _) as [[i d]|]; simpl; [|done].
  eapply sublist_NoDup; [exact Hc|]. unfold doc_ids. apply omap_sublist, sublist_delete.
Qed.

Lemma handle_unique_ids r : preserves (fun c => unique_ids (documents c)) (handle r).
Proof.
  assert (forall doc, preserves (fun c => unique_ids (documents c)) (Product_of_doc doc))
    as Hdoc.
  { intros doc c Hc. by rewrite Product_of_doc_snd. }
  destruct r as [product_id|body|product_id body|product_id]; simpl.
  - apply preserves_bind; [|intros p; apply preserves_ret].
    apply preserves_bind; [apply preserves_lift|]. intros oid.
    apply preserves_bind; [apply find_one_unique_ids|]. intros product.
    destruct (truthy product); [apply Hdoc | apply preserves_raise].
  - apply preserves_bind; [apply preserves_lift|]. intros product.
    apply preserves_bind; [|intros p; apply preserves_ret].
    apply preserves_bind; [apply find_one_unique_ids|]. intros existing.
    destruct (truthy existing); [apply preserves_raise|].
    apply preserves_bind; [apply insert_one_unique_ids|]. intros inserted_id.
    apply preserves_bind; [apply find_one_unique_ids|]. intros new_product.
    apply Hdoc.
  - apply preserves_bind; [apply preserves_lift|]. intros update_model.
    apply preserves_bind; [|intros p; apply preserves_ret].
    apply preserves_bind; [apply preserves_lift|]. intros oid.
    apply preserves_bind; [apply find_one_and_update_unique_ids|]. intros product.
    destruct (truthy product); [apply Hdoc | apply preserves_raise].
  - apply preserves_bind; [|intros d; apply preserves_ret].
    apply preserves_bind; [apply preserves_lift|]. intros oid.
    apply preserves_bind; [apply delete_one_unique_ids|]. intros deleted_count.
    destruct (deleted_count =? 1)%Z; [apply preserves_ret | apply preserves_raise].
Qed.

(** X17.  Identifiers stay distinct: from a collection in which no two
    documents have the same [_id], every sequence of requests leads to a
    collection in which no two documents have the same [_id] (an insert
    whose identifier is taken writes nothing, an update leaves [_id] as
    it is). *)
Theorem serve_keeps_ids_unique (rs : list Request) (c : Collection) :
  unique_ids (documents c) -> unique_ids (documents (serve rs c)).
Proof.
  revert c. induction rs as [|r rs IH]; intros c Hc; [done|].
  simpl. apply IH. by apply (handle_unique_ids r c).
Qed.

(** ** The list of products *)

Section listing_properties.

Variable single_batch : nat -> list Doc -> list Doc.

Lemma get_products_loop_acc cursor : forall acc,
  get_products_loop cursor acc
    = match get_products_loop cursor [] with
      | inl e => inl e
      | inr ps => inr (acc ++ ps)%list
      end.
Proof.
  induction cursor as [|d cursor IH]; intros acc; simpl.
  - by rewrite app_nil_r.
  - destruct (serialized d) as [e|kw]; [done|].
    destruct (Product_init kw) as [e|p]; [done|].
    rewrite (IH (acc ++ [p])%list), (IH [p]).
    destruct (get_products_loop cursor []); [done|]. by rewrite <- app_assoc.
Qed.

Lemma get_products_loop_listed cursor ps :
  get_products_loop cursor [] = inr ps <-> Forall2 listed_as cursor ps.
Proof.
  revert ps. induction cursor as [|d cursor IH]; intros ps; simpl.
  - split; [intros [= <-]; constructor | by intros ->%Forall2_nil_inv_l].
  - split.
    + destruct (serialized d) as [e|kw] eqn:Hkw; [discriminate|].
      destruct (Product_init kw) as [e|p] eqn:Hp; [discriminate|].
      rewrite get_products_loop_acc.
      destruct (get_products_loop cursor []) as [e|ps'] eqn:Hloop; [discriminate|].
      intros [= <-]. constructor; [by exists kw | by apply IH].
    + intros (p & ps' & (kw & Hkw & Hp) & Hrest & ->)%Forall2_cons_inv_l.
      rewrite Hkw, Hp, get_products_loop_acc.
      apply IH in Hrest. by rewrite Hrest.
Qed.

Lemma find_skip_limit_page (skip limit : Z) (docs : list Doc) :
  (0 <= skip <= int64_max)%Z -> (0 <= limit <= int64_max)%Z ->
  find_skip_limit single_batch skip limit docs
    = inr (page (Z.to_nat skip) (Z.to_nat limit) docs).
Proof.
  intros Hskip Hlimit. unfold find_skip_limit.
  rewrite (proj2 (Z.ltb_ge skip 0)) by lia.
  rewrite (proj2 (Z.ltb_ge int64_max skip)) by lia.
  rewrite Z.abs_eq by lia.
  rewrite (proj2 (Z.ltb_ge int64_max limit)) by lia. simpl.
  f_equal. unfold page. destruct (Z.eqb_spec limit 0) as [->|Hne]; [done|].
  rewrite (proj2 (Z.ltb_lt 0 limit)) by lia.
  destruct (Z.to_nat limit) eqn:E; [lia | done].
Qed.

(** X18.  [get_products] is all or nothing and keeps the order: for a
    [skip] and a [limit] that are not negative (and fit 8 bytes) it
    returns a list exactly when every document of the page is accepted
    as a Product once serialized, and then the list has one product per
    document of the page, in the order of the page. *)
Theorem get_products_page (skip limit : Z) (c : Collection) (ps : list Product) :
  (0 <= skip <= int64_max)%Z -> (0 <= limit <= int64_max)%Z ->
  get_products single_batch skip limit c = inr ps
  <-> Forall2 listed_as (page (Z.to_nat skip) (Z.to_nat limit) (documents c)) ps.
Proof.
  intros Hskip Hlimit. unfold get_products.
  rewrite find_skip_limit_page by done.
  rewrite <- get_products_loop_listed.
  destruct (get_products_loop _ []); split; congruence.
Qed.

Lemma listed_stored (d : Doc) o n pr :
  has_id o d -> d !! "name" = Some (VStr n) -> d !! "price" = Some (VFloat pr) ->
  alphabetic n -> float_lt zero pr ->
  forall p, listed_as d p <-> p = mkProduct (Some (ObjectId_str o)) n pr.
Proof.
  intros Hid Hname Hprice Hn Hpr p.
  assert (Product_init (<["_id" := VStr (ObjectId_str o)]> d)
          = inr (mkProduct (Some (ObjectId_str o)) n pr)) as Hinit.
  { apply Product_init_stored; try done.
    - by rewrite lookup_insert_eq.
    - by rewrite lookup_insert_ne.
    - by rewrite lookup_insert_ne. }
  unfold listed_as. rewrite (serialized_ObjectId d o Hid). split.
  - intros (kw & [= <-] & Hp). congruence.
  - intros ->. by eexists.
Qed.

Lemma Forall2_listed_exists (l : list Doc) :
  Forall (fun d => exists p, listed_as d p) l -> exists ps, Forall2 listed_as l ps.
Proof.
  induction 1 as [|d l [p Hp] _ [ps IH]]; [by exists [] | exists (p :: ps); by constructor].
Qed.

Lemma page_lookup (skip limit : nat) (docs : list Doc) k d :
  page skip limit docs !! k = Some d -> docs !! (skip + k) = Some d.
Proof.
  unfold page. destruct limit as [|limit].
  - by rewrite lookup_drop.
  - intros [Hk _]%lookup_take_Some. by rewrite lookup_drop in Hk.
Qed.

Lemma page_length (skip limit : nat) (docs : list Doc) :
  length (page skip limit docs)
    = match limit with
      | 0 => length docs - skip
      | _ => min limit (length docs - skip)
      end.
Proof.
  unfold page. destruct limit; [by rewrite length_drop|].
  by rewrite length_take, length_drop.
Qed.

(** X19.  On a collection whose documents satisfy the data model and have
    native identifiers, [get_products] does not fail for a [skip] and a
    [limit] between 0 and the largest 8-byte integer: it returns as many
    products as the page has documents (all that follow the first [skip]
    ones when [limit] is 0, at most [limit] otherwise), and the product
    at place [k] has the identifier text, the name and the price of the
    document at place [skip + k] of the collection. *)
Theorem get_products_of_valid_store (skip limit : Z) (c : Collection) :
  store_ok c ->
  Forall (fun d => exists o, has_id o d) (documents c) ->
  (0 <= skip <= int64_max)%Z -> (0 <= limit <= int64_max)%Z ->
  exists ps,
    get_products single_batch skip limit c = inr ps
    /\ length ps = match Z.to_nat limit with
                   | 0 => length (documents c) - Z.to_nat skip
                   | _ => min (Z.to_nat limit) (length (documents c) - Z.to_nat skip)
                   end
    /\ forall k p, ps !! k = Some p ->
         exists d o, documents c !! (Z.to_nat skip + k) = Some d
                     /\ has_id o d /\ id p = Some (ObjectId_str o)
                     /\ d !! "name" = Some (VStr (name p))
                     /\ d !! "price" = Some (VFloat (price p)).
Proof.
  intros Hok Hids Hskip Hlimit.
  set (pg := page (Z.to_nat skip) (Z.to_nat limit) (documents c)).
  assert (forall k d, pg !! k = Some d ->
            exists o n pr, has_id o d /\ documents c !! (Z.to_nat skip + k) = Some d
              /\ d !! "name" = Some (VStr n) /\ d !! "price" = Some (VFloat pr)
              /\ alphabetic n /\ float_lt zero pr) as Hpg.
  { intros k d Hk. apply page_lookup in Hk.
    pose proof (Forall_lookup_1 _ _ _ _ Hok Hk) as (n & pr & Hn & Hpr & Han & Hpp).
    pose proof (Forall_lookup_1 _ _ _ _ Hids Hk) as [o Ho].
    by exists o, n, pr. }
  destruct (Forall2_listed_exists pg) as [ps Hps].
  { apply Forall_lookup. intros k d Hk.
    destruct (Hpg k d Hk) as (o & n & pr & Ho & _ & Hn & Hpr & Han & Hpp).
    eexists. by apply (listed_stored d o n pr). }
  exists ps. split; [by apply get_products_page|]. split.
  - rewrite <- (Forall2_length _ _ _ Hps). apply page_length.
  - intros k p Hk.
    destruct (Forall2_lookup_r _ _ _ _ _ Hps Hk) as (d & Hd & Hlisted).
    destruct (Hpg k d Hd) as (o & n & pr & Ho & Hdoc & Hn & Hpr & Han & Hpp).
    apply (listed_stored d o n pr) in Hlisted as ->; try done.
    by exists d, o.
Qed.

Lemma page_add (skip n1 n2 : nat) (docs : list Doc) :
  n1 <> 0 -> n2 <> 0 ->
  page skip (n1 + n2) docs = (page skip n1 docs ++ page (skip + n1) n2 docs)%list.
Proof.
  intros H1 H2. destruct n1 as [|a]; [done|]. destruct n2 as [|b]; [done|].
  unfold page. by rewrite <- drop_drop, take_take_drop.
Qed.

(** X20.  Pages follow one another: for a [skip] that is not negative
    and limits [limit1] and [limit2] above 0, with [skip + limit1] and
    [limit1 + limit2] not above the largest 8-byte integer, when the page
    of [limit1] products from [skip] and the page of [limit2] products
    from [skip + limit1] are both returned, the page of
    [limit1 + limit2] products from [skip] is returned too, and it is the
    first list followed by the second. *)
Theorem get_products_pages (skip limit1 limit2 : Z) (c : Collection)
    (ps1 ps2 : list Product) :
  (0 <= skip)%Z -> (0 < limit1)%Z -> (0 < limit2)%Z ->
  (skip + limit1 <= int64_max)%Z -> (limit1 + limit2 <= int64_max)%Z ->
  get_products single_batch skip limit1 c = inr ps1 ->
  get_products single_batch (skip + limit1) limit2 c = inr ps2 ->
  get_products single_batch skip (limit1 + limit2) c = inr (ps1 ++ ps2)%list.
Proof.
  intros Hs Hl1 Hl2 Hb1 Hb2 H1 H2.
  apply get_products_page in H1; [|lia..].
  apply get_products_page in H2; [|lia..].
  apply get_products_page; [lia..|].
  rewrite Z2Nat.inj_add in H2 by lia. rewrite Z2Nat.inj_add by lia.
  rewrite page_add by lia. by apply Forall2_app.
Qed.

(** X21.  The ends of the list: a negative [skip] is refused by the
    cursor, whatever the limit and whatever the collection holds; for a
    [limit] between 0 and the largest 8-byte integer, a [skip] that is at
    least the number of documents and at most the largest 8-byte integer
    gives the empty list and no error, whatever the documents are. *)
Theorem get_products_ends (skip limit : Z) (c : Collection) :
  ((skip < 0)%Z ->
     get_products single_batch skip limit c = inl (cursor_error ValueError_skip))
  /\ ((0 <= limit <= int64_max)%Z ->
      (Z.of_nat (length (documents c)) <= skip <= int64_max)%Z ->
      get_products single_batch skip limit c = inr []).
Proof.
  split.
  - intros Hneg. unfold get_products, find_skip_limit.
    by rewrite (proj2 (Z.ltb_lt skip 0)) by lia.
  - intros Hlimit Hskip. apply get_products_page; [lia|lia|].
    unfold page. rewrite drop_ge by lia.
    destruct (Z.to_nat limit); [constructor | rewrite take_nil; constructor].
Qed.

Lemma Product_of_doc_listed (d : Doc) (p : Product) c c' :
  Product_of_doc (Some d) c = (inr p, c') -> listed_as d p.
Proof.
  unfold Product_of_doc, bind, lift, listed_as.
  destruct (serialized d) as [e|kw]; [discriminate|]. simpl.
  destruct (Product_init kw) as [e|p'] eqn:Hp; [discriminate|].
  intros [= <- _]. by exists kw.
Qed.

(** X22.  A product that [create_product] returned is the last one of
    the full list: when the documents could be listed before the call,
    the list after the call is the list before it followed by the product
    that was returned. *)
Theorem create_then_list (product created : Product) (c c1 : Collection)
    (ps : list Product) :
  create_product product c = (inr created, c1) ->
  get_products single_batch 0 0 c = inr ps ->
  get_products single_batch 0 0 c1 = inr (ps ++ [created])%list.
Proof.
  intros Hcreate Hlist.
  assert (0 <= 0 <= int64_max)%Z as Hz by (unfold int64_max; lia).
  apply get_products_page in Hlist; [|done..].
  apply get_products_page; [done..|].
  change (page (Z.to_nat 0) (Z.to_nat 0) ?l) with l in *.
  destruct (create_product_run product c)
    as [(d & _ & _ & Hrun)|[(_ & _ & c' & Hrun & _)|(_ & _ & c' & Hrun & Hdocs & _)]].
  - rewrite Hcreate in Hrun. discriminate.
  - rewrite Hcreate in Hrun. discriminate.
  - rewrite Hcreate in Hrun. symmetry in Hrun.
    pose proof (Product_of_doc_snd (Some (<["_id" := VObjectId (new_ObjectId (generated c))]>
                                            (model_dump product))) c') as Hsnd.
    rewrite Hrun in Hsnd. simpl in Hsnd. subst c'.
    apply Product_of_doc_listed in Hrun.
    rewrite Hdocs. apply Forall2_app; [done|]. by repeat constructor.
Qed.

End listing_properties.

End Service.

(** C2 at a concrete input: a text of 24 characters with white space
    between its digit pairs is not a string of 24 hexadecimal digits, and
    validation accepts it (with an identifier of 8 bytes). *)
Lemma validate_object_id_spaced_text :
  is_hex24 "5f 9d 1b 3b 9c 9d 6e 1d " = false /\
  validate_object_id "5f 9d 1b 3b 9c 9d 6e 1d "
    = inr (mkObjectId [x5f; x9d; x1b; x3b; x9c; x9d; x6e; x1d]).
Proof. split; reflexivity. Qed.

Lemma validate_object_id_accepts_witness :
  exists o, validate_object_id "5f9d1b3b9c9d6e1d9c9d6e1d" = inr o
            /\ length (binary o) = 12
            /\ ObjectId_str o = lower "5f9d1b3b9c9d6e1d9c9d6e1d".
Proof.
  apply (proj1 (validate_object_id_accepts "5f9d1b3b9c9d6e1d9c9d6e1d")).
  reflexivity.
Defined.

(** ** Closed examples on the collection [shop] *)

Ltac no_such_doc :=
  repeat constructor;
  let H := fresh in intros H; vm_compute in H; discriminate H.

Lemma create_product_conflict_witness :
  exists c',
    create_product ex_str_of_float ex_float_of_str ex_new_ObjectId
      (mkProduct None "Milk" price_99_99) shop
      = (inl (HTTPException 400 "Product already exists"), c')
    /\ documents c' = documents shop
    /\ length (documents c') = length (documents shop)
    /\ generated c' = generated shop
    /\ calls c' = (calls shop ++ [call_find_one {[ "name" := VStr "Milk" ]}])%list.
Proof.
  apply (create_product_conflict ex_str_of_float ex_float_of_str ex_new_ObjectId
           (mkProduct None "Milk" price_99_99) shop milk_doc).
  - apply list_elem_of_further, list_elem_of_here.
  - reflexivity.
Defined.

Lemma shop_ok : store_ok shop.
Proof.
  repeat constructor.
  - exists "Bread", price_99_99. repeat split; done.
  - exists "Milk", price_99_99. repeat split; done.
Defined.

Lemma serve_keeps_products_valid_witness :
  store_ok shop /\
  forall d,
    d ∈ documents
          (serve ex_str_of_float ex_float_of_str ex_new_ObjectId
             [POST_products {[ "name" := VStr "Eggs"; "price" := VFloat price_99_99 ]};
              PUT_product "5f9d1b3b9c9d6e1d9c9d6e1d"
                {[ "name" := VStr "Cream"; "price" := VFloat price_99_99 ]};
              POST_products {[ "name" := VStr "Salt"; "price" := VFloat price_minus_1 ]};
              DELETE_product "5f9d1b3b9c9d6e1d9c9d6e1e"] shop) ->
    exists n p, d !! "name" = Some (VStr n) /\ d !! "price" = Some (VFloat p)
                /\ alphabetic n /\ float_lt zero p /\ ~ float_le p zero.
Proof.
  split; [exact shop_ok|].
  apply (serve_keeps_products_valid ex_str_of_float ex_float_of_str ex_new_ObjectId).
  exact shop_ok.
Defined.

Lemma get_product_spec_witness :
  get_product ex_str_of_float ex_float_of_str "5f9d1b3b9c9d6e1d9c9d6e1d" shop
    = (inr (mkProduct (Some "5f9d1b3b9c9d6e1d9c9d6e1d") "Milk" price_99_99),
       log (call_find_one {[ "_id" := VObjectId milk_oid ]}) shop)
  /\ get_product ex_str_of_float ex_float_of_str "invalid" shop
     = (inl (HTTPException 400 "Invalid ObjectId"), shop).
Proof.
  destruct (get_product_spec ex_str_of_float ex_float_of_str
              "5f9d1b3b9c9d6e1d9c9d6e1d" shop) as (_ & _ & _ & Hok).
  destruct (Hok milk_oid eq_refl) as (_ & _ & _ & Hfound & _).
  destruct (Hfound [bread_doc] milk_doc [] eq_refl eq_refl) as [_ Hvalid];
    [no_such_doc|].
  destruct (get_product_spec ex_str_of_float ex_float_of_str "invalid" shop)
    as (_ & Hbad & _).
  split.
  - apply (Hvalid "Milk" price_99_99); done.
  - apply Hbad. left. vm_compute. discriminate.
Defined.

(** C5 at a concrete input: the text of 24 characters with white space
    between its digit pairs is not a string of 24 hexadecimal digits, and
    [get_product] does not fail with HTTP 400 on it: it looks the decoded
    identifier up in the collection and fails with HTTP 404. *)
Lemma get_product_spaced_text :
  is_hex24 "5f 9d 1b 3b 9c 9d 6e 1d " = false
  /\ get_product ex_str_of_float ex_float_of_str "5f 9d 1b 3b 9c 9d 6e 1d " shop
     = (inl (HTTPException 404 "Product not found"),
        mkCollection [bread_doc; milk_doc] 0
          [call_find_one
             {[ "_id" := VObjectId
                           (mkObjectId [x5f; x9d; x1b; x3b; x9c; x9d; x6e; x1d]) ]}]).
Proof. split; vm_compute; reflexivity. Qed.

Lemma update_product_spec_witness :
  let renamed := <["name" := VStr "Milk"]> (<["price" := VFloat price_99_99]> bread_doc) in
  let c' := snd (update_product ex_str_of_float ex_float_of_str
                   (mkProduct None "Milk" price_99_99) "5f9d1b3b9c9d6e1d9c9d6e1e" shop) in
  update_product ex_str_of_float ex_float_of_str
    (mkProduct None "Milk" price_99_99) "5f9d1b3b9c9d6e1d9c9d6e1e" shop
  = (inr (mkProduct (Some "5f9d1b3b9c9d6e1d9c9d6e1e") "Milk" price_99_99),
     set_documents [renamed; milk_doc]
       (log (call_find_one_and_update {[ "_id" := VObjectId bread_oid ]}
               (model_dump (mkProduct None "Milk" price_99_99))) shop))
  /\ documents c' = [renamed; milk_doc]
  /\ documents c' !! 0 = Some renamed
  /\ renamed !! "name" = Some (VStr "Milk")
  /\ renamed !! "price" = Some (VFloat price_99_99)
  /\ calls c' = [call_find_one_and_update {[ "_id" := VObjectId bread_oid ]}
                   (model_dump (mkProduct None "Milk" price_99_99))].
Proof.
  destruct (update_product_spec ex_str_of_float ex_float_of_str
              {[ "name" := VStr "Milk"; "price" := VFloat price_99_99 ]}
              (mkProduct None "Milk" price_99_99)
              "5f9d1b3b9c9d6e1d9c9d6e1e" bread_oid shop)
    as [Hfound _]; [reflexivity..|].
  destruct (Hfound [] bread_doc [milk_doc] eq_refl eq_refl)
    as (Hupd & _ & Hdocs & Hat & Hname & Hprice & _ & _ & Hcalls);
    [constructor|].
  repeat split; assumption.
Defined.

Lemma delete_product_spec_witness :
  delete_product "5f9d1b3b9c9d6e1d9c9d6e1d" shop
    = (inr {[ "message" := VStr "Product successfully deleted" ]},
       set_documents [bread_doc] (log (call_delete_one {[ "_id" := VObjectId milk_oid ]}) shop))
  /\ fst (delete_product "5f9d1b3b9c9d6e1d9c9d6e1d"
            (snd (delete_product "5f9d1b3b9c9d6e1d9c9d6e1d" shop)))
     = inl (HTTPException 404 "Product not found").
Proof.
  destruct (delete_product_spec "5f9d1b3b9c9d6e1d9c9d6e1d" milk_oid shop eq_refl)
    as [Hfound _].
  apply (Hfound [bread_doc] milk_doc [] eq_refl eq_refl).
  no_such_doc.
Defined.

Lemma create_then_get_witness :
  exists created c1 returned_id fetched c2,
    create_product ex_str_of_float ex_float_of_str ex_new_ObjectId
      (mkProduct None "Eggs" price_99_99) shop = (inr created, c1)
    /\ id created = Some returned_id
    /\ name created = "Eggs" /\ price created = price_99_99
    /\ get_product ex_str_of_float ex_float_of_str returned_id c1 = (inr fetched, c2)
    /\ name fetched = "Eggs" /\ price fetched = price_99_99
    /\ id fetched = Some returned_id.
Proof.
  apply (create_then_get ex_str_of_float ex_float_of_str ex_new_ObjectId
           {[ "name" := VStr "Eggs"; "price" := VFloat price_99_99 ]}
           (mkProduct None "Eggs" price_99_99) shop).
  - reflexivity.
  - no_such_doc.
  - reflexivity.
  - no_such_doc.
Defined.

Lemma serialize_doc_copy_witness :
  exists (doc' : positive) (h' : heap) (d' : Doc),
    serialize_doc ex_str_of_float 1%positive {[ 1%positive := milk_doc ]} = (inr doc', h')
    /\ doc' <> 1%positive /\ ({[ 1%positive := milk_doc ]} : heap) !! doc' = None
    /\ h' !! doc' = Some d'
    /\ d' !! "_id" = Some (VStr (ObjectId_str milk_oid))
    /\ (forall k, k <> "_id" -> d' !! k = milk_doc !! k)
    /\ h' !! 1%positive = Some milk_doc
    /\ (forall l, l <> doc' -> h' !! l = ({[ 1%positive := milk_doc ]} : heap) !! l).
Proof.
  apply (serialize_doc_copy ex_str_of_float {[ 1%positive := milk_doc ]}
           1%positive milk_doc milk_oid); reflexivity.
Defined.

Lemma update_product_frame_witness :
  let c' := snd (update_product ex_str_of_float ex_float_of_str
                   (mkProduct None "Cream" price_99_99)
                   "5f9d1b3b9c9d6e1d9c9d6e1d" shop) in
  exists d',
    documents c' = [bread_doc; d']
    /\ d' !! "_id" = milk_doc !! "_id"
    /\ d' !! "name" = Some (VStr "Cream")
    /\ d' !! "price" = Some (VFloat price_99_99)
    /\ (forall k, k <> "name" -> k <> "price" -> d' !! k = milk_doc !! k)
    /\ length (documents c') = length (documents shop)
    /\ (forall j, j <> 1 -> documents c' !! j = documents shop !! j)
    /\ generated c' = generated shop.
Proof.
  apply (update_product_frame ex_str_of_float ex_float_of_str
           (mkProduct None "Cream" price_99_99) "5f9d1b3b9c9d6e1d9c9d6e1d"
           milk_oid shop [bread_doc] [] milk_doc); try reflexivity.
  no_such_doc.
Defined.

(** ** Closed examples for Part III *)

Lemma create_eggs :
  create_product ex_str_of_float ex_float_of_str ex_new_ObjectId eggs shop
    = (inr eggs_created, shop_with_eggs).
Proof. vm_compute. reflexivity. Defined.

Lemma ObjectId_text_round_trip_witness :
  validate_object_id (ObjectId_str milk_oid) = inr milk_oid
  /\ String.length (ObjectId_str milk_oid) = 24.
Proof. apply (ObjectId_text_round_trip milk_oid). reflexivity. Defined.

Lemma validate_object_id_length_witness :
  length [x5f; x9d; x1b; x3b; x9c; x9d; x6e; x1d] <= 12
  /\ (length [x5f; x9d; x1b; x3b; x9c; x9d; x6e; x1d] = 12
      <-> is_hex24 "5f 9d 1b 3b 9c 9d 6e 1d " = true).
Proof.
  apply (validate_object_id_length "5f 9d 1b 3b 9c 9d 6e 1d "
           (mkObjectId [x5f; x9d; x1b; x3b; x9c; x9d; x6e; x1d])).
  reflexivity.
Defined.

Lemma serialize_doc_KeyError_witness :
  let h : heap := {[ 1%positive := {[ "name" := VStr "Milk" ]} ]} in
  (({[ "name" := VStr "Milk" ]} : Doc) !! "_id" = None
     <-> serialize_doc ex_str_of_float 1%positive h = (inl (KeyError "_id"), h))
  /\ (is_Some (({[ "name" := VStr "Milk" ]} : Doc) !! "_id")
      <-> exists doc' h', serialize_doc ex_str_of_float 1%positive h = (inr doc', h')).
Proof.
  apply (serialize_doc_KeyError ex_str_of_float
           {[ 1%positive := {[ "name" := VStr "Milk" ]} ]} 1%positive
           {[ "name" := VStr "Milk" ]}).
  reflexivity.
Defined.

Lemma serialize_doc_twice_witness :
  let h : heap := {[ 1%positive := milk_doc ]} in
  let h1 := snd (serialize_doc ex_str_of_float 1%positive h) in
  exists (d1 : Doc) (doc2 : positive) (h2 : heap),
    h1 !! 2%positive = Some d1
    /\ serialize_doc ex_str_of_float 2%positive h1 = (inr doc2, h2)
    /\ doc2 <> 2%positive
    /\ h2 !! doc2 = Some d1
    /\ h2 !! 2%positive = Some d1.
Proof.
  apply (serialize_doc_twice ex_str_of_float {[ 1%positive := milk_doc ]}
           (snd (serialize_doc ex_str_of_float 1%positive {[ 1%positive := milk_doc ]}))
           1%positive 2%positive milk_doc).
  - reflexivity.
  - vm_compute. reflexivity.
Defined.

Lemma Product_rejects_native_id_witness :
  exists fields,
    Product_init ex_float_of_str milk_doc = inl (ValidationError fields)
    /\ "_id" ∈ fields.
Proof. apply (Product_rejects_native_id ex_float_of_str milk_doc milk_oid). reflexivity. Defined.

Lemma model_dump_round_trip_witness :
  dom (model_dump eggs_created) = ({[ "name"; "price" ]} : gset string)
  /\ model_dump eggs_created !! "_id" = None /\ model_dump eggs_created !! "id" = None
  /\ Product_init ex_float_of_str (model_dump eggs_created)
     = inr (mkProduct None "Eggs" price_99_99).
Proof.
  apply (model_dump_round_trip ex_float_of_str
           {[ "_id" := VStr "000000000000000000000000"; "name" := VStr "Eggs";
              "price" := VFloat price_99_99 ]} eggs_created).
  reflexivity.
Defined.

Lemma create_product_appends_witness :
  let c' := snd (create_product ex_str_of_float ex_float_of_str ex_new_ObjectId eggs shop) in
  exists new : Doc,
    documents c' = [bread_doc; milk_doc; new]
    /\ dom new = ({[ "_id"; "name"; "price" ]} : gset string)
    /\ new !! "_id" = Some (VObjectId (ex_new_ObjectId 0))
    /\ new !! "name" = Some (VStr "Eggs")
    /\ new !! "price" = Some (VFloat price_99_99)
    /\ generated c' = 1
    /\ calls c' = [call_find_one {[ "name" := VStr "Eggs" ]};
                   call_insert_one (model_dump eggs);
                   call_find_one {[ "_id" := VObjectId (ex_new_ObjectId 0) ]}].
Proof.
  apply (create_product_appends ex_str_of_float ex_float_of_str ex_new_ObjectId eggs shop);
    no_such_doc.
Defined.

Lemma create_product_twice_witness :
  exists c2,
    create_product ex_str_of_float ex_float_of_str ex_new_ObjectId
      (mkProduct None "Eggs" price_minus_1) shop_with_eggs
      = (inl (HTTPException 400 "Product already exists"), c2)
    /\ documents c2 = documents shop_with_eggs.
Proof.
  apply (create_product_twice ex_str_of_float ex_float_of_str ex_new_ObjectId
           eggs (mkProduct None "Eggs" price_minus_1) shop shop_with_eggs eggs_created).
  - exact create_eggs.
  - reflexivity.
Defined.



Lemma refused_id_reaches_nothing_witness :
  update_product ex_str_of_float ex_float_of_str eggs "invalid" shop
    = (inl (HTTPException 400 "Invalid ObjectId"), shop)
  /\ delete_product "invalid" shop = (inl (HTTPException 400 "Invalid ObjectId"), shop).
Proof.
  apply (refused_id_reaches_nothing ex_str_of_float ex_float_of_str eggs "invalid" shop
           (HTTPException 400 "Invalid ObjectId")).
  reflexivity.
Defined.

Lemma update_then_get_witness :
  fst (get_product ex_str_of_float ex_float_of_str "5f9d1b3b9c9d6e1d9c9d6e1d"
         (snd (update_product ex_str_of_float ex_float_of_str
                 (mkProduct None "Cream" price_99_99) "5f9d1b3b9c9d6e1d9c9d6e1d" shop)))
    = inr (mkProduct (Some "5f9d1b3b9c9d6e1d9c9d6e1d") "Cream" price_99_99).
Proof.
  apply (update_then_get ex_str_of_float ex_float_of_str
           (mkProduct None "Cream" price_99_99) "5f9d1b3b9c9d6e1d9c9d6e1d" shop).
  vm_compute. reflexivity.
Defined.

Lemma shop_unique_ids : unique_ids (documents shop).
Proof.
  apply (bool_decide_unpack _). vm_compute. exact I.
Defined.

Lemma serve_keeps_ids_unique_witness :
  unique_ids
    (documents
       (serve ex_str_of_float ex_float_of_str ex_new_ObjectId
          [POST_products {[ "name" := VStr "Eggs"; "price" := VFloat price_99_99 ]};
           PUT_product "5f9d1b3b9c9d6e1d9c9d6e1d"
             {[ "name" := VStr "Cream"; "price" := VFloat price_99_99 ]};
           DELETE_product "5f9d1b3b9c9d6e1d9c9d6e1e"] shop)).
Proof.
  apply (serve_keeps_ids_unique ex_str_of_float ex_float_of_str ex_new_ObjectId).
  exact shop_unique_ids.
Defined.

Lemma int64_max_bounds :
  (0 <= 0 <= int64_max)%Z /\ (0 <= 1 <= int64_max)%Z /\ (0 <= 10 <= int64_max)%Z.
Proof. unfold int64_max. lia. Defined.

Lemma get_products_page_witness :
  get_products ex_str_of_float ex_float_of_str ex_single_batch 0 10 shop
    = inr [bread_listed; milk_listed]
  <-> Forall2 (listed_as ex_str_of_float ex_float_of_str)
        (page (Z.to_nat 0) (Z.to_nat 10) (documents shop)) [bread_listed; milk_listed].
Proof.
  apply (get_products_page ex_str_of_float ex_float_of_str ex_single_batch
           0 10 shop [bread_listed; milk_listed]); apply int64_max_bounds.
Defined.

Lemma get_products_of_valid_store_witness :
  exists ps,
    get_products ex_str_of_float ex_float_of_str ex_single_batch 0 10 shop = inr ps
    /\ length ps = match Z.to_nat 10 with
                   | 0 => length (documents shop) - Z.to_nat 0
                   | _ => min (Z.to_nat 10) (length (documents shop) - Z.to_nat 0)
                   end
    /\ forall k p, ps !! k = Some p ->
         exists d o, documents shop !! (Z.to_nat 0 + k) = Some d
                     /\ has_id o d /\ id p = Some (ObjectId_str o)
                     /\ d !! "name" = Some (VStr (name p))
                     /\ d !! "price" = Some (VFloat (price p)).
Proof.
  apply (get_products_of_valid_store ex_str_of_float ex_float_of_str ex_single_batch
           0 10 shop).
  - exact shop_ok.
  - repeat constructor; [by exists bread_oid | by exists milk_oid].
  - apply int64_max_bounds.
  - apply int64_max_bounds.
Defined.

Lemma get_products_pages_witness :
  get_products ex_str_of_float ex_float_of_str ex_single_batch 0 (1 + 1) shop
    = inr ([bread_listed] ++ [milk_listed])%list.
Proof.
  apply (get_products_pages ex_str_of_float ex_float_of_str ex_single_batch
           0 1 1 shop [bread_listed] [milk_listed]);
    try (unfold int64_max; lia); vm_compute; reflexivity.
Defined.

Lemma create_then_list_witness :
  get_products ex_str_of_float ex_float_of_str ex_single_batch 0 0 shop_with_eggs
    = inr ([bread_listed; milk_listed] ++ [eggs_created])%list.
Proof.
  apply (create_then_list ex_str_of_float ex_float_of_str ex_new_ObjectId ex_single_batch
           eggs eggs_created shop shop_with_eggs [bread_listed; milk_listed]).
  - exact create_eggs.
  - vm_compute. reflexivity.
Defined.

